(** * MCGPU: the Metropolis driver of src/Metropolis/Simulation.cpp

    A shallow embedding of [Simulation::Simulation], [Simulation::run],
    [Simulation::saveState] and [Simulation::writePDB], and of the loop of
    the integration test that reads the results file back, followed by the
    properties of the step loop, the acceptance test, the checkpoint
    cadence, the final report and the two text files. *)

From Stdlib Require Import ZArith List Ascii String Bool Lia.
From Stdlib Require Import Floats.SpecFloat.
From Stdlib Require DecimalString DecimalPos DecimalZ.
From Equations Require Import Equations.
Import ListNotations.

Local Open Scope string_scope.
Local Open Scope list_scope.
Local Open Scope Z_scope.

(** ** C++ [int]

    The driver's counters and step indices are [int].  They are modelled as
    [Z]; the one addition of the driver that can leave the range of [int]
    for representable operands, [stepStart + simSteps], goes through
    [Int.add], which has no result on overflow (signed overflow has no
    defined behaviour in C++). *)

Module Int.

Definition MIN : Z := -2147483648.
Definition MAX : Z := 2147483647.

Definition in_range (z : Z) : bool := (MIN <=? z) && (z <=? MAX).

Definition add (a b : Z) : option Z :=
  if in_range (a + b) then Some (a + b) else None.

(** [a % b] of C++ truncates towards zero, as [Z.rem] does. *)
Definition rem (a b : Z) : Z := Z.rem a b.

End Int.

(** ** IEEE arithmetic of the acceptance-ratio report

    Line 198 computes in [double], line 229 in [float]. *)

Module Ieee.

Definition binary64 : Z * Z := (53, 1024).
Definition binary32 : Z * Z := (24, 128).

Section Format.
Variable fmt : Z * Z.

(** Conversion of an [int] (or of an integral literal such as [100.0]) to
    the format, rounding to nearest even. *)
Definition of_int (z : Z) : spec_float :=
  binary_normalize (fst fmt) (snd fmt) z 0 false.
Definition mul : spec_float -> spec_float -> spec_float :=
  SFmul (fst fmt) (snd fmt).
Definition div : spec_float -> spec_float -> spec_float :=
  SFdiv (fst fmt) (snd fmt).
End Format.

Definition is_nan (f : spec_float) : bool :=
  match f with S754_nan => true | _ => false end.

End Ieee.

(** ** The floating-point type [Real]

    [Real] is a typedef of a header that is not part of this slice (float or
    double, chosen at build time), and [exp] comes from libm.  The driver
    only combines them through the operations below, so they are an
    interface; the two laws are facts of IEEE comparison that hold in either
    precision ([0 == 0], and [a >= b] excludes [a < b]). *)

Class RealArith : Type := {
  Real : Type;
  R_zero : Real;
  R_one : Real;
  Radd : Real -> Real -> Real;
  Rsub : Real -> Real -> Real;
  Rmul : Real -> Real -> Real;
  Rdiv : Real -> Real -> Real;
  Rneg : Real -> Real;
  Rexp : Real -> Real;
  Rlt : Real -> Real -> bool;
  Rge : Real -> Real -> bool;
  Req : Real -> Real -> bool;
  (** [kBoltz] of Metropolis/Utilities/MathLibrary.h *)
  kBoltz : Real;
  Req_zero : Req R_zero R_zero = true;
  Rge_not_lt : forall a b, Rge a b = true -> Rlt a b = false
}.

(** ** SimulationArgs *)

Inductive SimulationMode := Serial | Parallel.

Definition SimulationMode_eqb (a b : SimulationMode) : bool :=
  match a, b with
  | Serial, Serial | Parallel, Parallel => true
  | _, _ => false
  end.

Record SimulationArgs (FileType : Type) := {
  simulationMode : SimulationMode;
  filePath : string;
  fileType : FileType;
  simulationName : string;
  stepCount : Z;
  statusInterval : Z;
  stateInterval : Z
}.
Arguments simulationMode {FileType} _.
Arguments filePath {FileType} _.
Arguments fileType {FileType} _.
Arguments simulationName {FileType} _.
Arguments stepCount {FileType} _.
Arguments statusInterval {FileType} _.
Arguments stateInterval {FileType} _.

(** ** The external collaborators

    [Box], the shared random source and the two energy back ends are not
    part of this slice; the driver reaches them through these operations.
    The random source is process-wide state in the program; here it is the
    explicit [Rng] value that every stochastic operation threads. *)

Record Environment `{RealArith} := {
  temp : Real;
  randomseed : Z;
  numOfMolecules : Z
}.

Class BoxModel `{RealArith} : Type := {
  Box : Type;
  Rng : Type;
  FileType : Type;
  getEnvironment : Box -> Environment;
  getMoleculeCount : Box -> Z;
  (** [Box::chooseMolecule()] *)
  chooseMolecule : Box -> Rng -> Z * Rng;
  (** [Box::changeMolecule(idx)] *)
  changeMolecule : Z -> Box -> Rng -> Box * Rng;
  (** [Box::rollback(idx)] *)
  rollback : Z -> Box -> Box;
  (** [seed(s)] *)
  seed : Z -> Rng;
  (** [randomReal(lo, hi)] *)
  randomReal : Real -> Real -> Rng -> Real * Rng
}.

(** One energy back end: [SerialCalcs] or [ParallelCalcs].  [createBox]
    receives the current values of the two out-parameters and returns the
    box (or none) together with their new values. *)
Record EnergyBackend `{BoxModel} := {
  createBox : string -> FileType -> Z -> Z -> option Box * Z * Z;
  calcSystemEnergy : Box -> Real;
  calcMolecularEnergyContribution : Box -> Z -> Real
}.

(** Modelled from the spec: [toString<int>] of
    Metropolis/Utilities/Parsing.h is not part of this slice.  The state
    file is named [<name>_<step>.state] with the step index written as a
    decimal numeral (the integration test removes [waterCPU_1000.state]
    after a run of 1000 steps), and formatting an [int] does not fail. *)
Definition toString (value : Z) : option string :=
  Some (DecimalString.NilZero.string_of_int (Z.to_int value)).

Definition RESULTS_FILE_DEFAULT : string := "run".
Definition RESULTS_FILE_EXT : string := ".results".
Definition EXIT_FAILURE : Z := 1.

(** Clock readings and the timestamp are supplied by the operating system. *)
Record Clock := {
  startTime : Z;
  endTime : Z;
  currentDateTime : string
}.

(** [100.0 * accepted / (accepted + rejected)], line 198 *)
Definition acceptanceRatio (accepted rejected : Z) : spec_float :=
  Ieee.div Ieee.binary64
    (Ieee.mul Ieee.binary64 (Ieee.of_int Ieee.binary64 100)
                            (Ieee.of_int Ieee.binary64 accepted))
    (Ieee.of_int Ieee.binary64 (accepted + rejected)).

(** [100.0f * accepted / (float) (accepted + rejected)], line 229 *)
Definition acceptanceRate (accepted rejected : Z) : spec_float :=
  Ieee.div Ieee.binary32
    (Ieee.mul Ieee.binary32 (Ieee.of_int Ieee.binary32 100)
                            (Ieee.of_int Ieee.binary32 accepted))
    (Ieee.of_int Ieee.binary32 (accepted + rejected)).

(** [run] either returns or, when [stepStart + simSteps] overflows, has no
    defined behaviour. *)
Inductive outcome (A : Type) : Type :=
| Returned (a : A)
| Undefined.
Arguments Returned {A} a.
Arguments Undefined {A}.

(** The value an outcome returned, [d] if there is none. *)
Definition returned {A : Type} (d : A) (o : outcome A) : A :=
  match o with Returned a => a | Undefined => d end.

(** The step indices [lo, lo+1, ..., lo+n-1]. *)
Fixpoint Zrange (lo : Z) (n : nat) : list Z :=
  match n with
  | O => []
  | S k => lo :: Zrange (lo + 1) k
  end.

Section Driver.

Context {RA : RealArith} {BM : BoxModel}.
Variables SerialCalcs ParallelCalcs : EnergyBackend.

(** *** What the driver writes *)

Record Results := {
  Timestamp : string;
  Simulation_Name : option string;
  Simulation_Mode : string;
  Starting_Step : Z;
  Steps : Z;
  Molecule_Count : Z;
  Final_Energy : Real;
  Run_Time : Z * Z;
  Accepted_Moves : Z;
  Rejected_Moves : Z;
  Acceptance_Rate : spec_float
}.

Inductive output :=
| PrintSimulationName (name : string)
| PrintUsingSeed (s : Z)
| PrintRunning (steps : Z)
| PrintStatus (move : Z) (energy : Real)
| PrintSavingState (path : string)
| OutputState (env : Environment) (molecules : Box) (count : Z)
              (simStep : Z) (path : string)
| PrintFinalStep (step : Z) (energy : Real)
| PrintSummary (steps : Z) (energy : Real) (diffTime : Z * Z)
               (acc rej : Z) (ratio : spec_float)
| ResultsFile (path : string) (r : Results)
| PdbFile (path : string) (molecules : Box).

(** *** Simulation::Simulation *)

Record Simulation := {
  args : SimulationArgs FileType;
  stepStart : Z;
  simSteps : Z;
  box : Box
}.

Inductive construction :=
| Exited (cerr : string) (status : Z)
| Constructed (sim : Simulation) (cout : list output) (rng : Rng).

(** [simSteps0] is the indeterminate value the member [simSteps] holds
    before [createBox] writes it. *)
Definition Simulation_new (simArgs : SimulationArgs FileType) (simSteps0 : Z)
  : construction :=
  let stepStart0 := 0 in
  let '(b, stepStart1, simSteps1) :=
    if SimulationMode_eqb (simulationMode simArgs) Parallel
    then createBox ParallelCalcs (filePath simArgs) (fileType simArgs)
                   stepStart0 simSteps0
    else createBox SerialCalcs (filePath simArgs) (fileType simArgs)
                   stepStart0 simSteps0 in
  match b with
  | None => Exited "Error: Unable to initialize simulation Box" EXIT_FAILURE
  | Some bx =>
      let s := randomseed (getEnvironment bx) in
      Constructed
        {| args := simArgs;
           stepStart := stepStart1;
           simSteps := if stepCount simArgs >? 0 then stepCount simArgs
                       else simSteps1;
           box := bx |}
        [PrintUsingSeed s]
        (seed s)
  end.

(** *** Simulation::saveState *)

Definition saveState (b : Box) (baseFileName : string) (simStep : Z)
  : list output :=
  match toString simStep with
  | None => []
  | Some stepCount =>
      let stateOutputPath := (baseFileName ++ "_" ++ stepCount ++ ".state")%string in
      [PrintSavingState stateOutputPath;
       OutputState (getEnvironment b) b (getMoleculeCount b) simStep
                   stateOutputPath]
  end.

(** The file name chosen by [Simulation::writePDB]. *)
Definition pdbName (a : SimulationArgs FileType) : string :=
  ((if String.eqb (simulationName a) "" then RESULTS_FILE_DEFAULT
    else simulationName a) ++ ".pdb")%string.

Definition writePDB (a : SimulationArgs FileType) (b : Box) : list output :=
  [PdbFile (pdbName a) b].

(** *** Simulation::run *)

Record Move := {
  move_index : Z;
  changeIdx : Z;
  oldEnergyCont : Real;
  newEnergyCont : Real;
  (** the random source as the acceptance test finds it *)
  rng_at_test : Rng;
  accept : bool;
  (** the random source as the acceptance test leaves it *)
  rng_after_test : Rng
}.

(** The driver's local variables, the box and the random source, what has
    been written so far, and the moves made so far. *)
Record RunState := {
  cur_box : Box;
  cur_rng : Rng;
  oldEnergy : Real;
  accepted : Z;
  rejected : Z;
  out : list output;
  history : list Move
}.

Definition systemEnergy (mode : SimulationMode) (b : Box) : Real :=
  if SimulationMode_eqb mode Parallel
  then calcSystemEnergy ParallelCalcs b
  else calcSystemEnergy SerialCalcs b.

Definition molecularEnergyContribution (mode : SimulationMode) (b : Box)
  (idx : Z) : Real :=
  if SimulationMode_eqb mode Parallel
  then calcMolecularEnergyContribution ParallelCalcs b idx
  else calcMolecularEnergyContribution SerialCalcs b idx.

(** Lines 148-166: the acceptance test. *)
Definition metropolis (kT oldCont newCont : Real) (g : Rng) : bool * Rng :=
  if Rlt newCont oldCont then (true, g)
  else
    let x := Rexp (Rdiv (Rneg (Rsub newCont oldCont)) kT) in
    let '(u, g') := randomReal R_zero R_one g in
    if Rge x u then (true, g') else (false, g').

(** Line 113 *)
Definition status_due (sim : Simulation) (move : Z) : bool :=
  (statusInterval (args sim) >? 0)
  && (Int.rem (move - stepStart sim) (statusInterval (args sim)) =? 0).

(** Line 119 *)
Definition checkpoint_due (sim : Simulation) (move : Z) : bool :=
  (stateInterval (args sim) >? 0)
  && (move >? stepStart sim)
  && (Int.rem (move - stepStart sim) (stateInterval (args sim)) =? 0).

(** Lines 113-124: what one iteration prints and saves before it moves. *)
Definition step_output (sim : Simulation) (baseStateFile : string) (move : Z)
  (s : RunState) : list output :=
  (if status_due sim move then [PrintStatus move (oldEnergy s)] else [])
  ++ (if checkpoint_due sim move then saveState (cur_box s) baseStateFile move
      else []).

(** Lines 126-166: choose a molecule, evaluate, perturb, evaluate, test.
    Returns the move with its verdict, the box as perturbed, and the random
    source as the test leaves it. *)
Definition propose (sim : Simulation) (kT : Real) (move : Z) (s : RunState)
  : Move * Box * Rng :=
  let mode := simulationMode (args sim) in
  let '(idx, g1) := chooseMolecule (cur_box s) (cur_rng s) in
  let oldCont := molecularEnergyContribution mode (cur_box s) idx in
  let '(b1, g2) := changeMolecule idx (cur_box s) g1 in
  let newCont := molecularEnergyContribution mode b1 idx in
  let '(acc, g3) := metropolis kT oldCont newCont g2 in
  ({| move_index := move; changeIdx := idx;
      oldEnergyCont := oldCont; newEnergyCont := newCont;
      rng_at_test := g2; accept := acc; rng_after_test := g3 |}, b1, g3).

(** Lines 113-178: the body of the step loop; its last part (168-178)
    commits the move or rolls it back. *)
Definition mc_step (sim : Simulation) (kT : Real) (baseStateFile : string)
  (move : Z) (s : RunState) : RunState :=
  let out' := out s ++ step_output sim baseStateFile move s in
  let '(m, b1, g3) := propose sim kT move s in
  if accept m then
    {| cur_box := b1; cur_rng := g3;
       oldEnergy := Radd (oldEnergy s)
                         (Rsub (newEnergyCont m) (oldEnergyCont m));
       accepted := accepted s + 1; rejected := rejected s;
       out := out'; history := history s ++ [m] |}
  else
    {| cur_box := rollback (changeIdx m) b1; cur_rng := g3;
       oldEnergy := oldEnergy s;
       accepted := accepted s; rejected := rejected s + 1;
       out := out'; history := history s ++ [m] |}.

(** Line 111: [for (move = ...; move < bound; move++) body]. *)
Equations? for_loop (body : Z -> RunState -> RunState) (bound move : Z)
  (s : RunState) : RunState by wf (Z.to_nat (bound - move)) lt :=
  for_loop body bound move s with Z_lt_dec move bound := {
    | left _ => for_loop body bound (move + 1) (body move s);
    | right _ => s }.
Proof. lia. Qed.

(** Lines 101-109 *)
Definition baseStateFile (a : SimulationArgs FileType) : string :=
  ("" ++ (if negb (String.eqb (simulationName a) "") then simulationName a
          else "untitled"))%string.

(** Lines 200-205 *)
Definition resultsName (a : SimulationArgs FileType) : string :=
  ((if String.eqb (simulationName a) "" then RESULTS_FILE_DEFAULT
    else simulationName a) ++ RESULTS_FILE_EXT)%string.

(** Line 78 *)
Definition run_kT (sim : Simulation) : Real :=
  Rmul kBoltz (temp (getEnvironment (box sim))).

(** Lines 71-98: the state in which the loop is entered. *)
Definition run_init (sim : Simulation) (g : Rng) : RunState :=
  let oldEnergy0 := R_zero in
  {| cur_box := box sim; cur_rng := g;
     oldEnergy := if Req oldEnergy0 R_zero
                  then systemEnergy (simulationMode (args sim)) (box sim)
                  else oldEnergy0;
     accepted := 0; rejected := 0;
     out := [PrintSimulationName (simulationName (args sim));
             PrintRunning (simSteps sim)];
     history := [] |}.

(** Lines 207-229 *)
Definition results (sim : Simulation) (clk : Clock) (s : RunState) : Results :=
  let a := args sim in
  {| Timestamp := currentDateTime clk;
     Simulation_Name := if negb (String.eqb (simulationName a) "")
                        then Some (simulationName a) else None;
     Simulation_Mode := if SimulationMode_eqb (simulationMode a) Parallel
                        then "GPU" else "CPU";
     Starting_Step := stepStart sim;
     Steps := simSteps sim;
     Molecule_Count := numOfMolecules (getEnvironment (cur_box s));
     Final_Energy := oldEnergy s;
     Run_Time := (startTime clk, endTime clk);
     Accepted_Moves := accepted s;
     Rejected_Moves := rejected s;
     Acceptance_Rate := acceptanceRate (accepted s) (rejected s) |}.

(** Lines 184-232: what is written once the loop is over; [last] is
    [stepStart + simSteps]. *)
Definition final_output (sim : Simulation) (clk : Clock) (last : Z)
  (s : RunState) : list output :=
  [PrintFinalStep last (oldEnergy s)]
  ++ (if stateInterval (args sim) >=? 0
      then saveState (cur_box s) (baseStateFile (args sim)) last else [])
  ++ [PrintSummary (simSteps sim) (oldEnergy s) (startTime clk, endTime clk)
                   (accepted s) (rejected s)
                   (acceptanceRatio (accepted s) (rejected s));
      ResultsFile (resultsName (args sim)) (results sim clk s)]
  ++ writePDB (args sim) (cur_box s).

Definition run_loop (sim : Simulation) (g : Rng) (last : Z) : RunState :=
  for_loop (mc_step sim (run_kT sim) (baseStateFile (args sim)))
           last (stepStart sim) (run_init sim g).

(** What is written before the loop is over: lines 71, 98, 115, 249, 251. *)
Definition written_in_loop (o : output) : bool :=
  match o with
  | PrintSimulationName _ | PrintRunning _ | PrintStatus _ _
  | PrintSavingState _ | OutputState _ _ _ _ _ => true
  | _ => false
  end.

(** The acceptance ratios a run reports: line 198 and line 229. *)
Definition reported_ratio (o : output) : list spec_float :=
  match o with
  | PrintSummary _ _ _ _ _ ratio => [ratio]
  | ResultsFile _ r => [Acceptance_Rate r]
  | _ => []
  end.

Definition reported_ratios (l : list output) : list spec_float :=
  flat_map reported_ratio l.

(** The guard of the spec: a run that made no move reports no NaN. *)
Definition ratio_guarded (o : outcome RunState) : Prop :=
  forall r, o = Returned r -> accepted r + rejected r = 0 ->
  Forall (fun f => Ieee.is_nan f = false) (reported_ratios (out r)).

(** The name [<base>_<step>.state]. *)
Definition state_file_name (base : string) (step : Z) : string :=
  (base ++ "_" ++ DecimalString.NilZero.string_of_int (Z.to_int step)
        ++ ".state")%string.

(** The state files written, each with the step it is written for. *)
Definition state_file (o : output) : list (Z * string) :=
  match o with
  | OutputState _ _ _ simStep path => [(simStep, path)]
  | _ => []
  end.

Definition state_files (l : list output) : list (Z * string) :=
  flat_map state_file l.

(** What a run decides and keeps, apart from what it prints and from the
    indices it gives its moves. *)
Definition trajectory (s : RunState)
  : Box * Rng * Real * Z * Z * list bool :=
  (cur_box s, cur_rng s, oldEnergy s, accepted s, rejected s,
   map accept (history s)).

(** The tracked energy is the energy of the box. *)
Definition energy_tracked (sim : Simulation) (s : RunState) : Prop :=
  oldEnergy s = systemEnergy (simulationMode (args sim)) (cur_box s).

(** The state at the step boundary reached after [k] iterations. *)
Definition state_after (sim : Simulation) (g : Rng) (k : nat) : RunState :=
  fold_left
    (fun st move => mc_step sim (run_kT sim) (baseStateFile (args sim)) move st)
    (Zrange (stepStart sim) k) (run_init sim g).

Definition run (sim : Simulation) (g : Rng) (clk : Clock) : outcome RunState :=
  match Int.add (stepStart sim) (simSteps sim) with
  | None => Undefined
  | Some last =>
      let s := run_loop sim g last in
      Returned {| cur_box := cur_box s; cur_rng := cur_rng s;
                  oldEnergy := oldEnergy s;
                  accepted := accepted s; rejected := rejected s;
                  out := out s ++ final_output sim clk last s;
                  history := history s |}
  end.

End Driver.

(** ** A small system to run the driver on

    One particle on a line in a harmonic well, in fixed-point arithmetic
    (thousandths): the energy is the square of the position, a move shifts
    the particle by a pseudo-random offset, and [exp] is replaced by the
    rational function [1/(1-z)] on [z <= 0]. *)

Module Well.

Definition scale : Z := 1000.

#[export, refine] Instance arith : RealArith := {|
  Real := Z;
  R_zero := 0;
  R_one := scale;
  Radd := Z.add;
  Rsub := Z.sub;
  Rmul := fun a b => a * b / scale;
  Rdiv := fun a b => a * scale / b;
  Rneg := Z.opp;
  Rexp := fun z => if z <=? 0 then scale * scale / (scale - z) else scale;
  Rlt := Z.ltb;
  Rge := Z.geb;
  Req := Z.eqb;
  kBoltz := 2 |}.
Proof.
  - reflexivity.
  - intros a b Hge. rewrite Z.geb_leb in Hge. apply Z.leb_le in Hge.
    apply Z.ltb_ge. exact Hge.
Defined.

Record well := {
  env : @Environment arith;
  position : Z;
  backup : Z
}.

(** A linear congruential generator. *)
Definition next (g : Z) : Z := (g * 1103515245 + 12345) mod 2147483648.

#[export] Instance model : BoxModel := {|
  Box := well;
  Rng := Z;
  FileType := unit;
  getEnvironment := env;
  getMoleculeCount := fun b => numOfMolecules (env b);
  chooseMolecule := fun b g => ((next g / 65536) mod numOfMolecules (env b), next g);
  changeMolecule := fun idx b g =>
    ({| env := env b;
        position := position b + ((next g / 65536) mod 2001 - 1000);
        backup := position b |}, next g);
  rollback := fun idx b =>
    {| env := env b; position := backup b; backup := backup b |};
  seed := fun s => s;
  randomReal := fun lo hi g => (lo + (next g / 65536) mod (hi - lo), next g) |}.

Definition energy (b : well) : Z := position b * position b / scale.

Definition initial (s : Z) : well :=
  {| env := {| temp := 298150; randomseed := s; numOfMolecules := 1 |};
     position := 3000; backup := 3000 |}.

(** The factory: no box without an input file; a saved state resumes at
    step 500; the configuration asks for 1000 steps. *)
Definition backend : EnergyBackend := {|
  createBox := fun path _ stepStart simSteps =>
    if String.eqb path "" then (None, stepStart, simSteps)
    else if String.eqb path "resume.state" then (Some (initial 12345), 500, 1000)
    else (Some (initial 12345), stepStart, 1000);
  calcSystemEnergy := energy;
  calcMolecularEnergyContribution := fun b _ => energy b |}.

Definition simArgs (path name : string) (steps status state : Z)
  : SimulationArgs unit :=
  {| simulationMode := Serial; filePath := path; fileType := tt;
     simulationName := name; stepCount := steps;
     statusInterval := status; stateInterval := state |}.

Definition sim (path name : string) (start steps status state : Z)
  : Simulation :=
  {| args := simArgs path name steps status state; stepStart := start;
     simSteps := steps; box := initial 12345 |}.

Definition clock : Clock :=
  {| startTime := 0; endTime := 42; currentDateTime := "2014-04-21 12:00:00" |}.

Definition later : Clock :=
  {| startTime := 7; endTime := 99; currentDateTime := "2014-04-22 08:30:00" |}.

(** Ten steps from step 5, unnamed, a state file every fourth step. *)
Definition ten_steps : Simulation := sim "water.config" "" 5 10 0 4.

Definition ten_steps_run : RunState :=
  returned (run_init backend backend ten_steps 12345)
           (run backend backend ten_steps 12345 clock).

Definition no_move : Move :=
  {| move_index := 0; changeIdx := 0; oldEnergyCont := 0; newEnergyCont := 0;
     rng_at_test := 0; accept := false; rng_after_test := 0 |}.

Definition nth_move (k : nat) : Move := nth k (history ten_steps_run) no_move.

(** Resumed from a saved state, with no step count given by the caller. *)
Definition resumed : Simulation :=
  {| args := simArgs "resume.state" "" 0 0 0; stepStart := 500;
     simSteps := 1000; box := initial 12345 |}.

(** No step at all. *)
Definition no_steps : Simulation := sim "water.config" "" 0 0 0 0.

Definition no_steps_run : RunState :=
  returned (run_init backend backend no_steps 12345)
           (run backend backend no_steps 12345 clock).

End Well.

(** ** What can be read off the output of a run *)

Section Observations.

Context {RA : RealArith} {BM : BoxModel}.

(** The progress lines of line 115: the step and the energy printed. *)
Definition status_line (o : output) : list (Z * Real) :=
  match o with
  | PrintStatus move energy => [(move, energy)]
  | _ => []
  end.

Definition status_lines (l : list output) : list (Z * Real) :=
  flat_map status_line l.

(** The paths of the files a run writes, in the order it writes them. *)
Definition artifact (o : output) : list string :=
  match o with
  | OutputState _ _ _ _ path => [path]
  | ResultsFile path _ => [path]
  | PdbFile path _ => [path]
  | _ => []
  end.

Definition artifacts (l : list output) : list string := flat_map artifact l.

(** A state file holds what [outputState] is handed on line 251. *)
Definition state_written_as_found (base : string) (state_at : Z -> Box)
  (o : output) : Prop :=
  match o with
  | OutputState env molecules count simStep path =>
      molecules = state_at simStep
      /\ env = getEnvironment molecules
      /\ count = getMoleculeCount molecules
      /\ path = state_file_name base simStep
  | _ => True
  end.

(** The progress line of the iteration that starts at boundary [k]. *)
Definition status_at (SerialCalcs ParallelCalcs : EnergyBackend)
  (sim : Simulation) (g : Rng) (k : nat) : list (Z * Real) :=
  if status_due sim (stepStart sim + Z.of_nat k)
  then [(stepStart sim + Z.of_nat k,
         oldEnergy (state_after SerialCalcs ParallelCalcs sim g k))]
  else [].

(** The steps for which a run writes a state file, in order. *)
Definition saved_steps (sim : Simulation) : list Z :=
  filter (checkpoint_due sim)
         (Zrange (stepStart sim) (Z.to_nat (simSteps sim)))
  ++ (if stateInterval (args sim) >=? 0
      then [stepStart sim + simSteps sim] else []).

(** The number of moves of a history with the given verdict. *)
Definition verdicts (v : bool) (h : list Move) : Z :=
  Z.of_nat (List.length (filter (fun m => Bool.eqb (accept m) v) h)).

End Observations.

(** A named run of the one-particle system: ten steps from step 5, a
    progress line every third step, a state file every fourth. *)
Module Named.

Definition sim : Simulation := Well.sim "water.config" "water" 5 10 3 4.

Definition result : RunState :=
  returned (run_init Well.backend Well.backend sim 12345)
           (run Well.backend Well.backend sim 12345 Well.clock).

(** The record the run writes to [water.results]. *)
Definition report : Results :=
  results sim Well.clock
    (run_loop Well.backend Well.backend sim 12345
       (stepStart sim + simSteps sim)).

(** The same run as the constructor sets it up from [water.config]. *)
Definition fresh : Simulation := Well.sim "water.config" "water" 0 10 3 4.

Definition fresh_result : RunState :=
  returned (run_init Well.backend Well.backend fresh 12345)
           (run Well.backend Well.backend fresh 12345 Well.clock).

(** A run whose name contains the key the integration test looks for. *)
Definition misnamed : Simulation :=
  Well.sim "water.config" "Final-Energy" 0 10 0 0.

Definition misnamed_result : RunState :=
  returned (run_init Well.backend Well.backend misnamed 12345)
           (run Well.backend Well.backend misnamed 12345 Well.clock).

Definition misnamed_report : Results :=
  results misnamed Well.clock
    (run_loop Well.backend Well.backend misnamed 12345
       (stepStart misnamed + simSteps misnamed)).

End Named.

(** ** Text written to files

    How a number of type [Real], [double] or [float] and the [name] of an
    atom appear under [operator<<] is fixed outside this slice (the
    typedefs and the structure declarations are in other headers); the
    driver fixes the fields, their order, their widths and their
    adjustment.  Integers are written as decimal numerals. *)

Class Rendering `{RealArith} (AtomName : Type) : Type := {
  (** a [Real] with [fixed] and [precision(3)] in force *)
  show_fixed3 : Real -> string;
  (** a [Real] with the stream's defaults *)
  show_Real : Real -> string;
  (** [diffTime], the quotient of the two clock readings *)
  show_diffTime : Z * Z -> string;
  (** the single-precision acceptance rate *)
  show_float : spec_float -> string;
  show_name : AtomName -> string
}.

Definition show_int (z : Z) : string :=
  DecimalString.NilZero.string_of_int (Z.to_int z).

Fixpoint spaces (n : nat) : string :=
  match n with
  | O => ""
  | S k => String " "%char (spaces k)
  end.

(** [os.width(w); os << s] with [left] adjustment: padded on the right with
    the fill character, never cut. *)
Definition put_left (w : nat) (s : string) : string :=
  (s ++ spaces (w - String.length s))%string.

(** The same with [right] adjustment. *)
Definition put_right (w : nat) (s : string) : string :=
  (spaces (w - String.length s) ++ s)%string.

(** [arr[i]]; reading outside the array has no defined result. *)
Definition read {T : Type} (arr : list T) (i : Z) : option T :=
  if i <? 0 then None else nth_error arr (Z.to_nat i).

(** [for (int i = start; i < bound; i++) body], where the body can fail. *)
Equations? for_each_index {A : Type} (body : Z -> A -> option A)
  (bound i : Z) (a : A) : option A by wf (Z.to_nat (bound - i)) lt :=
  for_each_index body bound i a with Z_lt_dec i bound := {
    | left _ with body i a := {
        | Some a' => for_each_index body bound (i + 1) a';
        | None => None };
    | right _ => Some a }.
Proof. lia. Qed.

(** A loop over the elements of [l], the first of which has index [i]. *)
Fixpoint fold_indexed {T A : Type} (f : Z -> T -> A -> option A) (i : Z)
  (l : list T) (a : A) : option A :=
  match l with
  | [] => Some a
  | t :: rest =>
      match f i t a with
      | Some a' => fold_indexed f (i + 1) rest a'
      | None => None
      end
  end.

Module Pdb.

Section Writer.

Context {RA : RealArith} {AtomName : Type} {RD : Rendering AtomName}.

Record Atom := {
  x : Real;
  y : Real;
  z : Real;
  id : Z;
  name : AtomName
}.

Record Molecule := {
  atoms : list Atom;
  numOfAtoms : Z
}.

(** Lines 279-298: one record; [i] is the index of the molecule. *)
Definition atom_record (i : Z) (currentAtom : Atom) : string :=
  (put_left 6 "ATOM"
   ++ put_right 5 (show_int (id currentAtom + 1))
   ++ put_right 3 (show_name (name currentAtom))
   ++ put_right 6 "UNK"
   ++ put_right 6 (show_int (i + 1))
   ++ put_right 12 (show_fixed3 (x currentAtom))
   ++ put_right 8 (show_fixed3 (y currentAtom))
   ++ put_right 8 (show_fixed3 (z currentAtom)))%string.

(** Lines 276-299 *)
Definition write_atoms (i : Z) (currentMol : Molecule) (lines : list string)
  : option (list string) :=
  for_each_index
    (fun j ls =>
       match read (atoms currentMol) j with
       | Some currentAtom => Some (ls ++ [atom_record i currentAtom])
       | None => None
       end)
    (numOfAtoms currentMol) 0 lines.

(** Lines 270-305: the lines of the coordinate file, or nothing when the
    loops read outside the molecule array or outside an atom array. *)
Definition writePDB_lines (sourceEnvironment : Environment)
  (sourceMoleculeCollection : list Molecule) : option (list string) :=
  match
    for_each_index
      (fun i ls =>
         match read sourceMoleculeCollection i with
         | Some currentMol =>
             match write_atoms i currentMol ls with
             | Some ls' => Some (ls' ++ ["TER"])
             | None => None
             end
         | None => None
         end)
      (numOfMolecules sourceEnvironment) 0 ["REMARK Created by MCGPU"]
  with
  | Some ls => Some (ls ++ ["END"])
  | None => None
  end.

(** The records of the first [n] atoms of a molecule. *)
Definition atom_records (i : Z) (mol : Molecule) : list string :=
  map (atom_record i) (firstn (Z.to_nat (numOfAtoms mol)) (atoms mol)).

(** The blocks of the molecules [mols], the first of which has index [i]. *)
Fixpoint molecule_blocks (i : Z) (mols : list Molecule) : list string :=
  match mols with
  | [] => []
  | mol :: rest =>
      atom_records i mol ++ ["TER"] ++ molecule_blocks (i + 1) rest
  end.

(** Every molecule has the atoms it announces. *)
Definition atoms_in_bounds (mols : list Molecule) : Prop :=
  Forall (fun mol => numOfAtoms mol <= Z.of_nat (List.length (atoms mol)))
         mols.

(** The number of atoms announced by the molecules. *)
Definition atom_count (mols : list Molecule) : Z :=
  fold_right (fun mol n => Z.max 0 (numOfAtoms mol) + n) 0 mols.

End Writer.

End Pdb.

(** ** The results file as text, and its reader in the integration test *)

Section ResultsText.

Context {RA : RealArith} {AtomName : Type} {RD : Rendering AtomName}.

(** Lines 211-229 of Simulation.cpp: the lines of the results file. *)
Definition results_lines (res : Results) : list string :=
  ["######### MCGPU Results File #############";
   "[Information]";
   ("Timestamp = " ++ Timestamp res)%string]
  ++ match Simulation_Name res with
     | Some n => [("Simulation-Name = " ++ n)%string]
     | None => []
     end
  ++ [("Simulation-Mode = " ++ Simulation_Mode res)%string;
      ("Starting-Step = " ++ show_int (Starting_Step res))%string;
      ("Steps = " ++ show_int (Steps res))%string;
      ("Molecule-Count = " ++ show_int (Molecule_Count res))%string;
      "";
      "[Results]";
      ("Final-Energy = " ++ show_Real (Final_Energy res))%string;
      ("Run-Time = " ++ show_diffTime (Run_Time res) ++ " seconds")%string;
      ("Accepted-Moves = " ++ show_int (Accepted_Moves res))%string;
      ("Rejected-Moves = " ++ show_int (Rejected_Moves res))%string;
      ("Acceptance-Rate = " ++ show_float (Acceptance_Rate res) ++ "%")%string].

End ResultsText.

(** [s.substr(pos)]: the rest of [s] from [pos], or an exception when [pos]
    is beyond the end. *)
Definition substr_from (pos : nat) (s : string) : option string :=
  if (pos <=? String.length s)%nat
  then Some (String.substring pos (String.length s - pos) s)
  else None.

(** What the loop of WaterTest.cpp, lines 83-94, ends with: the text it
    hands to [strtod], no line with the key (the result keeps its initial
    value), or the exception of [substr]. *)
Inductive reading :=
| Extracted (result : string)
| NotFound
| OutOfRange.

Fixpoint read_final_energy (lines : list string) : reading :=
  match lines with
  | [] => NotFound
  | line :: rest =>
      match String.index 0 "Final-Energy" line with
      | Some _ =>
          match substr_from 15 line with
          | Some result => Extracted result
          | None => OutOfRange
          end
      | None => read_final_energy rest
      end
  end.

(** Whether a character occurs in a string. *)
Fixpoint occurs (c : ascii) (s : string) : bool :=
  match s with
  | EmptyString => false
  | String d rest => Ascii.eqb c d || occurs c rest
  end.

(** The character [std::endl] writes and [getline] stops at. *)
Definition line_feed : ascii := "010"%char.

(** The text of a file written as [os << chunk << std::endl], chunk after
    chunk. *)
Definition written_text (chunks : list string) : string :=
  fold_right (fun chunk text => (chunk ++ String line_feed text)%string)
             "" chunks.

(** The lines successive calls of [getline] deliver from a text; [line] is
    what the line being read holds so far.  At the end of the text a line
    is delivered only if characters were read for it. *)
Fixpoint getlines_from (line text : string) : list string :=
  match text with
  | EmptyString => if String.eqb line "" then [] else [line]
  | String c rest =>
      if Ascii.eqb c line_feed then line :: getlines_from "" rest
      else getlines_from (line ++ String c "") rest
  end.

Definition getlines (text : string) : list string := getlines_from "" text.

(** Text for the one-particle system: fixed-point numbers with three
    decimals, atoms named by strings, two molecules of water. *)
Module WellText.

Definition digits3 (z : Z) : string :=
  ((if Z.ltb z 100 then "0" else "") ++ (if Z.ltb z 10 then "0" else "")
   ++ show_int z)%string.

Definition fixed3 (z : Z) : string :=
  ((if Z.ltb z 0 then "-" else "") ++ show_int (Z.div (Z.abs z) 1000) ++ "."
   ++ digits3 (Z.modulo (Z.abs z) 1000))%string.

#[global] Instance rendering : @Rendering Well.arith string :=
  @Build_Rendering Well.arith string
    fixed3 fixed3 (fun t => show_int (snd t - fst t)) (fun _ => "50")
    (fun n => n).

Definition atom (n : string) (i px py pz : Z) : @Pdb.Atom Well.arith string :=
  @Pdb.Build_Atom Well.arith string px py pz i n.

Definition water (first : Z) (px : Z) : @Pdb.Molecule Well.arith string :=
  @Pdb.Build_Molecule Well.arith string
    [atom "O" first px 0 0;
     atom "H" (first + 1) (px + 757) 586 0;
     atom "H" (first + 2) (px - 757) 586 0]
    3.

Definition two_waters : list (@Pdb.Molecule Well.arith string) :=
  [water 0 1500; water 3 (-12250)].

Definition environment (n : Z) : @Environment Well.arith :=
  @Build_Environment Well.arith 298150 12345 n.

End WellText.

(** * Properties *)

Lemma Zrange_snoc lo n :
  Zrange lo (S n) = Zrange lo n ++ [lo + Z.of_nat n].
Proof.
  revert lo. induction n as [|n IH]; intros lo.
  - simpl. now rewrite Z.add_0_r.
  - change (Zrange lo (S (S n))) with (lo :: Zrange (lo + 1) (S n)).
    rewrite IH. simpl. do 3 f_equal. lia.
Qed.

Lemma Zrange_length lo n : List.length (Zrange lo n) = n.
Proof. revert lo. induction n; intros; simpl; auto. Qed.

Lemma Zrange_In lo n z : In z (Zrange lo n) <-> lo <= z < lo + Z.of_nat n.
Proof.
  revert lo. induction n as [|n IH]; intros lo.
  - simpl. lia.
  - simpl Zrange. simpl In. rewrite IH. lia.
Qed.

Section Loop.

Context {RA : RealArith} {BM : BoxModel}.
Variable body : Z -> RunState -> RunState.
Variable bound : Z.

Lemma for_loop_lt move s :
  move < bound ->
  for_loop body bound move s = for_loop body bound (move + 1) (body move s).
Proof.
  intros Hlt. rewrite for_loop_equation_1.
  destruct (Z_lt_dec move bound); [reflexivity | contradiction].
Qed.

Lemma for_loop_ge move s : bound <= move -> for_loop body bound move s = s.
Proof.
  intros Hge. rewrite for_loop_equation_1.
  destruct (Z_lt_dec move bound); [lia | reflexivity].
Qed.

(** The loop as so many applications of its body: [bound - move] of them,
    at consecutive indices. *)
Lemma for_loop_unroll move s :
  for_loop body bound move s
  = fold_left (fun st m => body m st)
              (Zrange move (Z.to_nat (bound - move))) s.
Proof.
  remember (Z.to_nat (bound - move)) as n eqn:Hn.
  revert move s Hn. induction n as [|n IH]; intros move s Hn.
  - simpl. apply for_loop_ge. lia.
  - rewrite for_loop_lt by lia. simpl. apply IH. lia.
Qed.

(** The invariant rule of the loop. *)
Lemma for_loop_invariant (P : Z -> RunState -> Prop) :
  (forall move s, move < bound -> P move s -> P (move + 1) (body move s)) ->
  forall move s, move <= bound -> P move s ->
  P bound (for_loop body bound move s).
Proof.
  intros Hbody move s.
  remember (Z.to_nat (bound - move)) as n eqn:Hn.
  revert move s Hn. induction n as [|n IH]; intros move s Hn Hle HP.
  - rewrite for_loop_ge by lia. now replace bound with move by lia.
  - rewrite for_loop_lt by lia. apply IH; [lia | lia |].
    apply Hbody; [lia | exact HP].
Qed.

(** An invariant that ignores the index holds however often the loop runs. *)
Lemma for_loop_preserves (I : RunState -> Prop) :
  (forall move s, I s -> I (body move s)) ->
  forall move s, I s -> I (for_loop body bound move s).
Proof.
  intros Hbody move s. rewrite for_loop_unroll.
  generalize (Zrange move (Z.to_nat (bound - move))) as l.
  intros l. revert s. induction l as [|m l IH]; intros s HI; simpl.
  - exact HI.
  - apply IH, Hbody, HI.
Qed.

End Loop.

Section Facts.

Context {RA : RealArith} {BM : BoxModel}.
Variables SerialCalcs ParallelCalcs : EnergyBackend.

Local Abbreviation propose := (propose SerialCalcs ParallelCalcs).
Local Abbreviation mc_step := (mc_step SerialCalcs ParallelCalcs).
Local Abbreviation run_loop := (run_loop SerialCalcs ParallelCalcs).
Local Abbreviation run_init := (run_init SerialCalcs ParallelCalcs).
Local Abbreviation state_after := (state_after SerialCalcs ParallelCalcs).
Local Abbreviation energy_tracked := (energy_tracked SerialCalcs ParallelCalcs).
Local Abbreviation run := (run SerialCalcs ParallelCalcs).
Local Abbreviation systemEnergy := (systemEnergy SerialCalcs ParallelCalcs).
Local Abbreviation molecularEnergyContribution :=
  (molecularEnergyContribution SerialCalcs ParallelCalcs).
Local Abbreviation Simulation_new := (Simulation_new SerialCalcs ParallelCalcs).

(** *** One step *)

Lemma metropolis_downhill kT oldCont newCont g :
  Rlt newCont oldCont = true -> metropolis kT oldCont newCont g = (true, g).
Proof. intros Hlt. unfold metropolis. now rewrite Hlt. Qed.

Lemma metropolis_uphill kT oldCont newCont g :
  Rlt newCont oldCont = false ->
  metropolis kT oldCont newCont g
  = (Rge (Rexp (Rdiv (Rneg (Rsub newCont oldCont)) kT))
         (fst (randomReal R_zero R_one g)),
     snd (randomReal R_zero R_one g)).
Proof.
  intros Hlt. unfold metropolis. rewrite Hlt.
  destruct (randomReal R_zero R_one g) as [u g']. simpl.
  now destruct (Rge _ u).
Qed.

Lemma propose_move_index sim kT move s :
  move_index (fst (fst (propose sim kT move s))) = move.
Proof.
  unfold propose.
  destruct (chooseMolecule _ _) as [idx g1].
  destruct (changeMolecule _ _ _) as [b1 g2].
  now destruct (metropolis _ _ _ _) as [acc g3].
Qed.

(** The verdict recorded in a move is the one of the acceptance test on the
    two contributions the move records, with the random source as recorded. *)
Lemma propose_verdict sim kT move s :
  let m := fst (fst (propose sim kT move s)) in
  metropolis kT (oldEnergyCont m) (newEnergyCont m) (rng_at_test m)
  = (accept m, rng_after_test m).
Proof.
  unfold propose.
  destruct (chooseMolecule _ _) as [idx g1].
  destruct (changeMolecule _ _ _) as [b1 g2].
  match goal with
  | |- context [let '(_, _) := ?test in _] =>
      destruct test as [acc g3] eqn:Hm
  end.
  simpl. exact Hm.
Qed.

Lemma mc_step_history sim kT base move s :
  history (mc_step sim kT base move s)
  = history s ++ [fst (fst (propose sim kT move s))].
Proof.
  unfold mc_step. destruct (propose sim kT move s) as [[m b1] g3].
  now destruct (accept m).
Qed.

Lemma mc_step_out sim kT base move s :
  out (mc_step sim kT base move s) = out s ++ step_output sim base move s.
Proof.
  unfold mc_step. destruct (propose sim kT move s) as [[m b1] g3].
  now destruct (accept m).
Qed.

Lemma mc_step_counters sim kT base move s :
  accepted (mc_step sim kT base move s) + rejected (mc_step sim kT base move s)
  = accepted s + rejected s + 1.
Proof.
  unfold mc_step. destruct (propose sim kT move s) as [[m b1] g3].
  destruct (accept m); simpl; lia.
Qed.

(** *** The whole run *)

Lemma run_Returned sim g clk r :
  run sim g clk = Returned r ->
  exists last,
    Int.add (stepStart sim) (simSteps sim) = Some last
    /\ last = stepStart sim + simSteps sim
    /\ history r = history (run_loop sim g last)
    /\ out r = out (run_loop sim g last)
                ++ final_output sim clk last (run_loop sim g last)
    /\ oldEnergy r = oldEnergy (run_loop sim g last)
    /\ cur_box r = cur_box (run_loop sim g last)
    /\ accepted r = accepted (run_loop sim g last)
    /\ rejected r = rejected (run_loop sim g last).
Proof.
  unfold run. intros Hrun.
  destruct (Int.add (stepStart sim) (simSteps sim)) as [last|] eqn:Hadd;
    [|discriminate].
  injection Hrun as <-. exists last. simpl.
  unfold Int.add in Hadd.
  destruct (Int.in_range _); [|discriminate].
  injection Hadd as <-. repeat split; reflexivity.
Qed.

Lemma run_defined sim g clk :
  Int.MIN <= stepStart sim + simSteps sim <= Int.MAX ->
  exists r, run sim g clk = Returned r.
Proof.
  intros Hrange. unfold run, Int.add, Int.in_range.
  replace (Int.MIN <=? stepStart sim + simSteps sim) with true
    by (symmetry; apply Z.leb_le; lia).
  replace (stepStart sim + simSteps sim <=? Int.MAX) with true
    by (symmetry; apply Z.leb_le; lia).
  simpl. eexists. reflexivity.
Qed.

Lemma run_returned_eq sim g clk d :
  Int.in_range (stepStart sim + simSteps sim) = true ->
  run sim g clk = Returned (returned d (run sim g clk)).
Proof. unfold run, Int.add. intros ->. reflexivity. Qed.

(** Every move of the loop satisfies what every proposal satisfies. *)
Lemma run_loop_moves (P : Move -> Prop) sim g last :
  (forall move s, P (fst (fst (propose sim (run_kT sim) move s)))) ->
  Forall P (history (run_loop sim g last)).
Proof.
  intros HP. unfold run_loop.
  apply for_loop_preserves with (I := fun s => Forall P (history s)).
  - intros move s Hs. rewrite mc_step_history.
    apply Forall_app. split; [exact Hs|]. constructor; [apply HP | constructor].
  - constructor.
Qed.

(** C1. For every Monte Carlo step of a run: when the contribution after the
    perturbation is strictly below the one before it, the step is accepted;
    the acceptance test gives that verdict whatever state the random source
    is in, and takes no draw from it. *)
Theorem downhill_move_accepted sim g clk r m :
  run sim g clk = Returned r ->
  In m (history r) ->
  Rlt (newEnergyCont m) (oldEnergyCont m) = true ->
  accept m = true
  /\ rng_after_test m = rng_at_test m
  /\ forall g', metropolis (run_kT sim) (oldEnergyCont m) (newEnergyCont m) g'
                = (true, g').
Proof.
  intros Hrun Hin Hlt.
  destruct (run_Returned _ _ _ _ Hrun) as (last & _ & _ & Hhist & _).
  rewrite Hhist in Hin.
  pose proof (run_loop_moves
    (fun m => metropolis (run_kT sim) (oldEnergyCont m) (newEnergyCont m)
                         (rng_at_test m) = (accept m, rng_after_test m))
    sim g last (fun move s => propose_verdict sim (run_kT sim) move s)) as Hall.
  rewrite Forall_forall in Hall. specialize (Hall m Hin). simpl in Hall.
  rewrite (metropolis_downhill _ _ _ _ Hlt) in Hall.
  injection Hall as Hacc Hrng.
  repeat split; auto.
  intros g'. now apply metropolis_downhill.
Qed.

(** C2. For every Monte Carlo step of a run in which the contribution after
    the perturbation is greater than or equal to the one before it: the step
    is accepted exactly when [exp(-(new - old) / kT)] is greater than or
    equal to the next draw of the shared source over [0, 1), one draw is
    taken, and [kT] is [kBoltz] times the temperature of the environment the
    run started with. *)
Theorem uphill_move_boltzmann sim g clk r m :
  run sim g clk = Returned r ->
  In m (history r) ->
  Rge (newEnergyCont m) (oldEnergyCont m) = true ->
  let kT := Rmul kBoltz (temp (getEnvironment (box sim))) in
  let x := Rexp (Rdiv (Rneg (Rsub (newEnergyCont m) (oldEnergyCont m))) kT) in
  let draw := randomReal R_zero R_one (rng_at_test m) in
  (accept m = true <-> Rge x (fst draw) = true)
  /\ rng_after_test m = snd draw.
Proof.
  intros Hrun Hin Hge.
  destruct (run_Returned _ _ _ _ Hrun) as (last & _ & _ & Hhist & _).
  rewrite Hhist in Hin.
  pose proof (run_loop_moves
    (fun m => metropolis (run_kT sim) (oldEnergyCont m) (newEnergyCont m)
                         (rng_at_test m) = (accept m, rng_after_test m))
    sim g last (fun move s => propose_verdict sim (run_kT sim) move s)) as Hall.
  rewrite Forall_forall in Hall. specialize (Hall m Hin). simpl in Hall.
  rewrite (metropolis_uphill _ _ _ _ (Rge_not_lt _ _ Hge)) in Hall.
  injection Hall as Hacc Hrng. unfold run_kT in Hacc.
  simpl. rewrite <- Hacc, <- Hrng. split; [tauto | reflexivity].
Qed.

Lemma saveState_eq b base simStep :
  saveState b base simStep
  = [PrintSavingState (state_file_name base simStep);
     OutputState (getEnvironment b) b (getMoleculeCount b) simStep
       (state_file_name base simStep)].
Proof. reflexivity. Qed.

Lemma run_loop_output sim g last :
  Forall (fun o => written_in_loop o = true) (out (run_loop sim g last)).
Proof.
  unfold run_loop.
  apply for_loop_preserves
    with (I := fun s => Forall (fun o => written_in_loop o = true) (out s)).
  - intros move s Hs. rewrite mc_step_out. apply Forall_app. split; [exact Hs|].
    unfold step_output. apply Forall_app. split.
    + destruct (status_due sim move); repeat constructor.
    + destruct (checkpoint_due sim move); [|constructor].
      rewrite saveState_eq. repeat constructor.
  - simpl. repeat constructor.
Qed.

(** *** Step boundaries *)

Lemma run_loop_state_after sim g last :
  run_loop sim g last = state_after sim g (Z.to_nat (last - stepStart sim)).
Proof. unfold run_loop, state_after. apply for_loop_unroll. Qed.

Lemma state_after_S sim g k :
  state_after sim g (S k)
  = mc_step sim (run_kT sim) (baseStateFile (args sim))
            (stepStart sim + Z.of_nat k) (state_after sim g k).
Proof.
  unfold state_after. rewrite Zrange_snoc, fold_left_app. reflexivity.
Qed.

Lemma state_after_indices sim g k :
  map move_index (history (state_after sim g k)) = Zrange (stepStart sim) k
  /\ accepted (state_after sim g k) + rejected (state_after sim g k)
     = Z.of_nat k.
Proof.
  induction k as [|k [IHh IHc]].
  - split; reflexivity.
  - rewrite state_after_S. split.
    + rewrite mc_step_history, map_app, IHh, Zrange_snoc. simpl.
      now rewrite propose_move_index.
    + rewrite mc_step_counters, IHc. lia.
Qed.

Section Bookkeeping.

Variable sim : Simulation.
Let mode := simulationMode (args sim).

(** The contracts of the collaborators: the change of the system energy
    under a perturbation of one molecule is the change of that molecule's
    contribution, and a rollback restores the energy. *)
Hypothesis contribution_contract : forall idx b rg,
  systemEnergy mode (fst (changeMolecule idx b rg))
  = Radd (systemEnergy mode b)
         (Rsub (molecularEnergyContribution mode
                  (fst (changeMolecule idx b rg)) idx)
               (molecularEnergyContribution mode b idx)).
Hypothesis rollback_contract : forall idx b rg,
  systemEnergy mode (rollback idx (fst (changeMolecule idx b rg)))
  = systemEnergy mode b.

Lemma mc_step_energy_tracked kT base move s :
  energy_tracked sim s -> energy_tracked sim (mc_step sim kT base move s).
Proof.
  unfold energy_tracked, mc_step, propose. fold mode. intros Hs.
  destruct (chooseMolecule _ _) as [idx g1].
  pose proof (contribution_contract idx (cur_box s) g1) as Hc.
  pose proof (rollback_contract idx (cur_box s) g1) as Hr.
  destruct (changeMolecule _ _ _) as [b1 g2]. simpl in Hc, Hr.
  destruct (metropolis _ _ _ _) as [[|] g3]; simpl.
  - rewrite Hc, Hs. reflexivity.
  - rewrite Hr. exact Hs.
Qed.

Lemma run_init_energy_tracked g : energy_tracked sim (run_init sim g).
Proof. unfold energy_tracked, run_init. simpl. now rewrite Req_zero. Qed.

Lemma state_after_energy_tracked g k :
  energy_tracked sim (state_after sim g k).
Proof.
  induction k as [|k IH].
  - apply run_init_energy_tracked.
  - rewrite state_after_S. now apply mc_step_energy_tracked.
Qed.

End Bookkeeping.

(** C3. In every step: an accepted move increments the accepted counter and
    adds [newEnergyCont - oldEnergyCont] to the running energy; a rejected
    move increments the rejected counter, leaves the running energy alone
    and leaves the box as [rollback] of the perturbed molecule makes it.
    Under the contracts of the collaborators the running energy is then the
    system energy of the box at every step boundary, and so is the energy
    the run ends with. *)
Theorem energy_bookkeeping sim g clk r
  (mode := simulationMode (args sim))
  (contribution_contract : forall idx b rg,
     systemEnergy mode (fst (changeMolecule idx b rg))
     = Radd (systemEnergy mode b)
            (Rsub (molecularEnergyContribution mode
                     (fst (changeMolecule idx b rg)) idx)
                  (molecularEnergyContribution mode b idx)))
  (rollback_contract : forall idx b rg,
     systemEnergy mode (rollback idx (fst (changeMolecule idx b rg)))
     = systemEnergy mode b) :
  run sim g clk = Returned r ->
  (forall kT base move s,
     let '(m, b1, g3) := propose sim kT move s in
     let s' := mc_step sim kT base move s in
     if accept m
     then accepted s' = accepted s + 1 /\ rejected s' = rejected s
          /\ oldEnergy s'
             = Radd (oldEnergy s) (Rsub (newEnergyCont m) (oldEnergyCont m))
          /\ cur_box s' = b1
     else rejected s' = rejected s + 1 /\ accepted s' = accepted s
          /\ oldEnergy s' = oldEnergy s
          /\ cur_box s' = rollback (changeIdx m) b1)
  /\ (forall k, oldEnergy (state_after sim g k)
                = systemEnergy mode (cur_box (state_after sim g k)))
  /\ oldEnergy r = systemEnergy mode (cur_box r).
Proof.
  intros Hrun. split; [|split].
  - intros kT base move s. unfold mc_step.
    destruct (propose sim kT move s) as [[m b1] g3].
    destruct (accept m); simpl; repeat split; reflexivity.
  - intros k.
    apply (state_after_energy_tracked sim contribution_contract
             rollback_contract g k).
  - destruct (run_Returned _ _ _ _ Hrun)
      as (last & _ & _ & _ & _ & He & Hb & _).
    rewrite He, Hb, run_loop_state_after.
    apply (state_after_energy_tracked sim contribution_contract
             rollback_contract).
Qed.

(** C4. For every run with [simSteps >= 0]: the loop body is executed
    exactly [simSteps] times, at the step indices [stepStart], ...,
    [stepStart + simSteps - 1] in this order, and the step index printed
    after the loop is [stepStart + simSteps].  There is such a run whenever
    [stepStart + simSteps] is representable, as the loop bound has to be. *)
Theorem loop_runs_simSteps_iterations sim g clk :
  0 <= simSteps sim ->
  (forall r,
     run sim g clk = Returned r ->
     map move_index (history r)
     = Zrange (stepStart sim) (Z.to_nat (simSteps sim))
     /\ Z.of_nat (List.length (history r)) = simSteps sim
     /\ accepted r + rejected r = simSteps sim
     /\ (forall step e, In (PrintFinalStep step e) (out r) ->
         step = stepStart sim + simSteps sim)
     /\ In (PrintFinalStep (stepStart sim + simSteps sim) (oldEnergy r))
           (out r))
  /\ (Int.MIN <= stepStart sim ->
      stepStart sim + simSteps sim <= Int.MAX ->
      exists r, run sim g clk = Returned r).
Proof.
  intros Hsteps. split; [|intros Hmin Hmax; apply run_defined; lia].
  intros r Hrun.
  destruct (run_Returned _ _ _ _ Hrun)
    as (last & _ & -> & Hh & Ho & He & _ & Ha & Hr).
  rewrite run_loop_state_after in Hh, Ha, Hr.
  replace (stepStart sim + simSteps sim - stepStart sim) with (simSteps sim)
    in Hh, Ha, Hr by lia.
  destruct (state_after_indices sim g (Z.to_nat (simSteps sim))) as [Hi Hc].
  rewrite Hh, Ha, Hr. repeat split.
  - exact Hi.
  - rewrite <- (length_map move_index), Hi, Zrange_length. lia.
  - rewrite Hc. lia.
  - intros step e Hin. rewrite Ho in Hin. apply in_app_or in Hin.
    destruct Hin as [Hin|Hin].
    + pose proof (run_loop_output sim g (stepStart sim + simSteps sim)) as Hl.
      rewrite Forall_forall in Hl. apply Hl in Hin. discriminate.
    + unfold final_output in Hin. simpl in Hin.
      destruct Hin as [Heq|Hin]; [now injection Heq|].
      apply in_app_or in Hin. destruct Hin as [Hin|Hin].
      * destruct (stateInterval (args sim) >=? 0); [|contradiction].
        rewrite saveState_eq in Hin. simpl in Hin.
        destruct Hin as [?|[?|[]]]; discriminate.
      * simpl in Hin. destruct Hin as [?|[?|[?|[]]]]; discriminate.
  - rewrite Ho, He. apply in_or_app. right. left. reflexivity.
Qed.

(** *** Checkpoints *)

Lemma checkpoint_due_iff sim move :
  checkpoint_due sim move = true
  <-> 0 < stateInterval (args sim)
      /\ 0 < move - stepStart sim
      /\ (stateInterval (args sim) | move - stepStart sim).
Proof.
  unfold checkpoint_due, Int.rem.
  rewrite !andb_true_iff, Z.eqb_eq, !Z.gtb_lt.
  split.
  - intros [[Hi Hm] Hr]. repeat split; [lia | lia |].
    apply Z.rem_divide; [lia | exact Hr].
  - intros (Hi & Hm & Hd). repeat split; [lia | lia |].
    apply Z.rem_divide; [lia | exact Hd].
Qed.

Lemma state_files_app l1 l2 :
  state_files (l1 ++ l2) = state_files l1 ++ state_files l2.
Proof. apply flat_map_app. Qed.

Lemma step_output_state_files sim base move s :
  state_files (step_output sim base move s)
  = if checkpoint_due sim move then [(move, state_file_name base move)]
    else [].
Proof.
  unfold step_output. rewrite state_files_app.
  destruct (status_due sim move); destruct (checkpoint_due sim move);
    reflexivity.
Qed.

(** The state files written up to a step boundary. *)
Lemma state_after_state_files sim g k :
  state_files (out (state_after sim g k))
  = map (fun move => (move, state_file_name (baseStateFile (args sim)) move))
        (filter (checkpoint_due sim) (Zrange (stepStart sim) k)).
Proof.
  induction k as [|k IH].
  - reflexivity.
  - rewrite state_after_S, mc_step_out, state_files_app, IH.
    rewrite step_output_state_files, Zrange_snoc, filter_app, map_app.
    f_equal. simpl. now destruct (checkpoint_due sim _).
Qed.

(** C6. During the loop a state file is saved for a step exactly when the
    step is one of the loop, the state interval is strictly positive and the
    offset of the step from [stepStart] is a positive multiple of the
    interval; what the loop writes is what the run has written when the
    final report begins. *)
Theorem checkpoint_cadence sim g clk r move :
  run sim g clk = Returned r ->
  let last := stepStart sim + simSteps sim in
  let loop := run_loop sim g last in
  out r = out loop ++ final_output sim clk last loop
  /\ ((exists path, In (move, path) (state_files (out loop)))
      <-> stepStart sim <= move < last
          /\ 0 < stateInterval (args sim)
          /\ 0 < move - stepStart sim
          /\ (stateInterval (args sim) | move - stepStart sim)).
Proof.
  intros Hrun last loop.
  destruct (run_Returned _ _ _ _ Hrun) as (last' & _ & -> & _ & Ho & _).
  split; [exact Ho|].
  unfold loop. rewrite run_loop_state_after, state_after_state_files.
  rewrite <- checkpoint_due_iff. split.
  - intros [path Hin]. apply in_map_iff in Hin.
    destruct Hin as (m & Heq & Hin). injection Heq as -> _.
    apply filter_In in Hin. destruct Hin as [Hin Hdue].
    apply Zrange_In in Hin. unfold last. split; [lia | exact Hdue].
  - intros [Hrange Hdue].
    exists (state_file_name (baseStateFile (args sim)) move).
    apply in_map_iff. exists move. split; [reflexivity|].
    apply filter_In. split; [|exact Hdue].
    apply Zrange_In. unfold last in Hrange. lia.
Qed.

Lemma final_output_state_files sim clk last s :
  state_files (final_output sim clk last s)
  = if stateInterval (args sim) >=? 0
    then [(last, state_file_name (baseStateFile (args sim)) last)] else [].
Proof.
  unfold final_output. simpl. rewrite state_files_app.
  destruct (stateInterval (args sim) >=? 0); reflexivity.
Qed.

(** C7. Once the loop is over, one state file is written if the state
    interval is non-negative and none if it is negative; it is written for
    the step [stepStart + simSteps], and its name is the base name of the
    run, an underscore, that step in decimal, and [.state]. *)
Theorem final_checkpoint sim g clk r :
  run sim g clk = Returned r ->
  let last := stepStart sim + simSteps sim in
  let loop := run_loop sim g last in
  let base := if String.eqb (simulationName (args sim)) "" then "untitled"
              else simulationName (args sim) in
  out r = out loop ++ final_output sim clk last loop
  /\ (0 <= stateInterval (args sim) ->
      state_files (final_output sim clk last loop)
      = [(last, (base ++ "_"
                  ++ DecimalString.NilZero.string_of_int (Z.to_int last)
                  ++ ".state")%string)])
  /\ (stateInterval (args sim) < 0 ->
      state_files (final_output sim clk last loop) = []).
Proof.
  intros Hrun last loop base.
  destruct (run_Returned _ _ _ _ Hrun) as (last' & _ & -> & _ & Ho & _).
  split; [exact Ho|].
  rewrite final_output_state_files.
  split; intros Hi.
  - replace (stateInterval (args sim) >=? 0) with true
      by (symmetry; apply Z.geb_le; lia).
    unfold state_file_name, baseStateFile, base.
    now destruct (String.eqb (simulationName (args sim)) "").
  - replace (stateInterval (args sim) >=? 0) with false; [reflexivity|].
    symmetry. rewrite Z.geb_leb. apply Z.leb_gt. lia.
Qed.

(** *** Construction *)

(** C8. If the factory of the selected back end returns no box, construction
    ends the process with a diagnostic and the failure status.  Otherwise
    the random source is seeded with [randomseed] of the environment of the
    box, and [simSteps] is the caller's [stepCount] when that is strictly
    positive and the value the factory gave when it is not. *)
Theorem construction_outcome simArgs simSteps0 :
  let backend := match simulationMode simArgs with
                 | Parallel => ParallelCalcs
                 | Serial => SerialCalcs
                 end in
  let '(b, stepStart1, simSteps1) :=
    createBox backend (filePath simArgs) (fileType simArgs) 0 simSteps0 in
  match b with
  | None =>
      Simulation_new simArgs simSteps0
      = Exited "Error: Unable to initialize simulation Box" 1
  | Some bx =>
      exists sim,
        Simulation_new simArgs simSteps0
        = Constructed sim [PrintUsingSeed (randomseed (getEnvironment bx))]
                      (seed (randomseed (getEnvironment bx)))
        /\ box sim = bx /\ args sim = simArgs /\ stepStart sim = stepStart1
        /\ (0 < stepCount simArgs -> simSteps sim = stepCount simArgs)
        /\ (stepCount simArgs <= 0 -> simSteps sim = simSteps1)
  end.
Proof.
  unfold Simulation_new.
  destruct (simulationMode simArgs); simpl;
    match goal with
    | |- context [createBox ?be ?p ?t ?a ?n] =>
        destruct (createBox be p t a n) as [[[bx|] stepStart1] simSteps1]
    end; try reflexivity.
  all: eexists; split; [reflexivity|]; simpl; repeat split; intros Hc.
  all: try (replace (stepCount simArgs >? 0) with true
              by (symmetry; apply Z.gtb_lt; lia); reflexivity).
  all: replace (stepCount simArgs >? 0) with false; [reflexivity|];
       symmetry; rewrite Z.gtb_ltb; apply Z.ltb_ge; lia.
Qed.

Lemma Simulation_new_Constructed simArgs simSteps0 sim cout g :
  Simulation_new simArgs simSteps0 = Constructed sim cout g ->
  args sim = simArgs /\ g = seed (randomseed (getEnvironment (box sim))).
Proof.
  unfold Simulation_new.
  destruct (if SimulationMode_eqb _ _ then _ else _)
    as [[[bx|] stepStart1] simSteps1]; [|discriminate].
  intros Heq. injection Heq as <- _ <-. simpl. now split.
Qed.

(** *** Two runs *)

Lemma mc_step_trajectory sim1 sim2 kT base1 base2 move1 move2 s1 s2 :
  simulationMode (args sim1) = simulationMode (args sim2) ->
  trajectory s1 = trajectory s2 ->
  trajectory (mc_step sim1 kT base1 move1 s1)
  = trajectory (mc_step sim2 kT base2 move2 s2).
Proof.
  unfold trajectory. intros Hmode Heq.
  injection Heq as Hb Hg He Ha Hr Hh.
  unfold mc_step, propose. rewrite Hmode, Hb, Hg.
  destruct (chooseMolecule _ _) as [idx g1].
  destruct (changeMolecule _ _ _) as [b1 g2].
  destruct (metropolis _ _ _ _) as [[|] g3]; simpl;
    rewrite !map_app, He, Ha, Hr, Hh; reflexivity.
Qed.

Lemma state_after_trajectory sim1 sim2 g k :
  simulationMode (args sim1) = simulationMode (args sim2) ->
  box sim1 = box sim2 ->
  trajectory (state_after sim1 g k) = trajectory (state_after sim2 g k).
Proof.
  intros Hmode Hbox. induction k as [|k IH].
  - unfold state_after, trajectory, run_init. simpl.
    now rewrite Hmode, Hbox.
  - rewrite !state_after_S.
    replace (run_kT sim1) with (run_kT sim2)
      by (unfold run_kT; now rewrite Hbox).
    now apply mc_step_trajectory.
Qed.

(** C9. Two simulations constructed on the same box (hence with the same
    seed) and the same back end, run for the same number of steps, make the
    same accept/reject decisions in the same order and end with the same
    tracked energy, whatever their names, reporting intervals, starting
    indices and clock readings are. *)
Theorem runs_agree a1 a2 n1 n2 sim1 sim2 cout1 cout2 g1 g2 clk1 clk2 r1 r2 :
  Simulation_new a1 n1 = Constructed sim1 cout1 g1 ->
  Simulation_new a2 n2 = Constructed sim2 cout2 g2 ->
  box sim1 = box sim2 ->
  simulationMode a1 = simulationMode a2 ->
  simSteps sim1 = simSteps sim2 ->
  run sim1 g1 clk1 = Returned r1 ->
  run sim2 g2 clk2 = Returned r2 ->
  map accept (history r1) = map accept (history r2)
  /\ oldEnergy r1 = oldEnergy r2
  /\ cur_box r1 = cur_box r2.
Proof.
  intros Hc1 Hc2 Hbox Hmode Hsteps Hrun1 Hrun2.
  destruct (Simulation_new_Constructed _ _ _ _ _ Hc1) as [Ha1 Hg1].
  destruct (Simulation_new_Constructed _ _ _ _ _ Hc2) as [Ha2 Hg2].
  destruct (run_Returned _ _ _ _ Hrun1)
    as (l1 & _ & -> & Hh1 & _ & He1 & Hb1 & _).
  destruct (run_Returned _ _ _ _ Hrun2)
    as (l2 & _ & -> & Hh2 & _ & He2 & Hb2 & _).
  rewrite Hh1, Hh2, He1, He2, Hb1, Hb2, !run_loop_state_after.
  replace (stepStart sim1 + simSteps sim1 - stepStart sim1)
    with (simSteps sim2) by lia.
  replace (stepStart sim2 + simSteps sim2 - stepStart sim2)
    with (simSteps sim2) by lia.
  subst g1 g2. rewrite Hbox.
  set (g := seed (randomseed (getEnvironment (box sim2)))).
  assert (Hm : simulationMode (args sim1) = simulationMode (args sim2))
    by (rewrite Ha1, Ha2; exact Hmode).
  pose proof (state_after_trajectory sim1 sim2 g
                (Z.to_nat (simSteps sim2)) Hm Hbox) as Ht.
  unfold trajectory in Ht. injection Ht as Hb _ He _ _ Hh.
  repeat split; assumption.
Qed.

(** *** Names of the artifacts *)

Lemma final_output_files sim clk last s :
  In (ResultsFile (resultsName (args sim)) (results sim clk s))
     (final_output sim clk last s)
  /\ In (PdbFile (pdbName (args sim)) (cur_box s))
        (final_output sim clk last s).
Proof.
  unfold final_output, writePDB. split.
  - apply in_or_app. right. apply in_or_app. right.
    apply in_or_app. left. right. left. reflexivity.
  - apply in_or_app. right. apply in_or_app. right.
    apply in_or_app. right. left. reflexivity.
Qed.


(** *** The acceptance ratio *)

Lemma mc_step_counters_nonneg sim kT base move s :
  0 <= accepted s /\ 0 <= rejected s ->
  0 <= accepted (mc_step sim kT base move s)
  /\ 0 <= rejected (mc_step sim kT base move s).
Proof.
  unfold mc_step. destruct (propose sim kT move s) as [[m b1] g3].
  destruct (accept m); simpl; lia.
Qed.

Lemma state_after_counters_nonneg sim g k :
  0 <= accepted (state_after sim g k) /\ 0 <= rejected (state_after sim g k).
Proof.
  induction k as [|k IH].
  - simpl. lia.
  - rewrite state_after_S. now apply mc_step_counters_nonneg.
Qed.

Lemma reported_ratios_app l1 l2 :
  reported_ratios (l1 ++ l2) = reported_ratios l1 ++ reported_ratios l2.
Proof. apply flat_map_app. Qed.

Lemma loop_output_no_ratio l :
  Forall (fun o => written_in_loop o = true) l -> reported_ratios l = [].
Proof.
  induction 1 as [|o l Ho _ IH]; [reflexivity|].
  unfold reported_ratios in *. simpl. rewrite IH.
  destruct o; try discriminate; reflexivity.
Qed.

Lemma final_output_ratios sim clk last s :
  reported_ratios (final_output sim clk last s)
  = [acceptanceRatio (accepted s) (rejected s);
     acceptanceRate (accepted s) (rejected s)].
Proof.
  unfold final_output. rewrite !reported_ratios_app.
  destruct (stateInterval (args sim) >=? 0); reflexivity.
Qed.

(** C5, as the code has it.  The two acceptance ratios a run reports are the
    IEEE quotients [100 * accepted / (accepted + rejected)], in double
    precision on the terminal and in single precision in the results file,
    computed without a test of the divisor; the two counters add up to the
    number of iterations.  When they add up to zero, as they do for
    [simSteps = 0], both quotients are [0/0]: the division does not trap,
    and what is reported is NaN. *)
Theorem ratio_of_zero_moves_is_nan sim g clk r :
  run sim g clk = Returned r ->
  reported_ratios (out r)
  = [acceptanceRatio (accepted r) (rejected r);
     acceptanceRate (accepted r) (rejected r)]
  /\ accepted r + rejected r = Z.max 0 (simSteps sim)
  /\ (accepted r + rejected r = 0 ->
      reported_ratios (out r) = [S754_nan; S754_nan]).
Proof.
  intros Hrun.
  destruct (run_Returned _ _ _ _ Hrun)
    as (last & _ & -> & _ & Ho & _ & _ & Ha & Hr).
  assert (Hrep : reported_ratios (out r)
                 = [acceptanceRatio (accepted r) (rejected r);
                    acceptanceRate (accepted r) (rejected r)]).
  { rewrite Ho, reported_ratios_app.
    rewrite (loop_output_no_ratio _ (run_loop_output sim g _)).
    now rewrite final_output_ratios, Ha, Hr. }
  rewrite run_loop_state_after in Ha, Hr.
  pose proof (state_after_counters_nonneg sim g
    (Z.to_nat (stepStart sim + simSteps sim - stepStart sim))) as [Hna Hnr].
  pose proof (state_after_indices sim g
    (Z.to_nat (stepStart sim + simSteps sim - stepStart sim))) as [_ Hsum].
  rewrite <- Ha in Hna, Hsum. rewrite <- Hr in Hnr, Hsum.
  split; [exact Hrep|]. split; [lia|].
  intros Hzero. rewrite Hrep.
  replace (accepted r) with 0 by lia. replace (rejected r) with 0 by lia.
  reflexivity.
Qed.

End Facts.

(** * The driver on the one-particle system *)

Example ten_steps_verdicts :
  map accept (history Well.ten_steps_run)
  = [false; true; false; true; false; false; false; true; true; true].
Proof. vm_compute. reflexivity. Qed.

Example ten_steps_state_files :
  state_files (out Well.ten_steps_run)
  = [(9, "untitled_9.state"); (13, "untitled_13.state");
     (15, "untitled_15.state")].
Proof. vm_compute. reflexivity. Qed.

Example water_test_state_file :
  state_file_name "waterCPU" 1000 = "waterCPU_1000.state".
Proof. reflexivity. Qed.

Lemma ten_steps_moves : List.length (history Well.ten_steps_run) = 10%nat.
Proof. vm_compute. reflexivity. Qed.

Lemma nth_move_In k :
  (k < 10)%nat -> In (Well.nth_move k) (history Well.ten_steps_run).
Proof.
  intros Hk. unfold Well.nth_move. refine (nth_In _ _ _).
  rewrite ten_steps_moves. exact Hk.
Qed.

(** The second move of the run goes downhill (9000 to 8520) and is accepted. *)
Lemma downhill_move_accepted_witness :
  Rlt (newEnergyCont (Well.nth_move 1)) (oldEnergyCont (Well.nth_move 1)) = true
  /\ accept (Well.nth_move 1) = true.
Proof.
  split; [reflexivity|].
  apply (downhill_move_accepted Well.backend Well.backend Well.ten_steps 12345
           Well.clock Well.ten_steps_run (Well.nth_move 1)).
  - apply run_returned_eq. reflexivity.
  - apply nth_move_In. lia.
  - reflexivity.
Defined.

(** The ninth move goes uphill (1852 to 3316) and is accepted on its draw. *)
Lemma uphill_move_boltzmann_witness :
  let m := Well.nth_move 8 in
  let kT := Rmul kBoltz (temp (getEnvironment (box Well.ten_steps))) in
  let x := Rexp (Rdiv (Rneg (Rsub (newEnergyCont m) (oldEnergyCont m))) kT) in
  let draw := randomReal R_zero R_one (rng_at_test m) in
  Rge (newEnergyCont m) (oldEnergyCont m) = true
  /\ ((accept m = true <-> Rge x (fst draw) = true)
      /\ rng_after_test m = snd draw).
Proof.
  split; [reflexivity|].
  apply (uphill_move_boltzmann Well.backend Well.backend Well.ten_steps 12345
           Well.clock Well.ten_steps_run (Well.nth_move 8)).
  - apply run_returned_eq. reflexivity.
  - apply nth_move_In. lia.
  - reflexivity.
Defined.

Lemma energy_bookkeeping_witness :
  oldEnergy Well.ten_steps_run = Well.energy (cur_box Well.ten_steps_run).
Proof.
  apply (energy_bookkeeping Well.backend Well.backend Well.ten_steps 12345
           Well.clock Well.ten_steps_run).
  - intros idx b rg.
    change (Well.energy (fst (changeMolecule idx b rg))
            = Well.energy b
              + (Well.energy (fst (changeMolecule idx b rg)) - Well.energy b)).
    lia.
  - intros idx b rg. reflexivity.
  - apply run_returned_eq. reflexivity.
Defined.

Lemma loop_runs_simSteps_iterations_witness :
  map move_index (history Well.ten_steps_run)
  = [5; 6; 7; 8; 9; 10; 11; 12; 13; 14]
  /\ Z.of_nat (List.length (history Well.ten_steps_run)) = 10
  /\ accepted Well.ten_steps_run + rejected Well.ten_steps_run = 10
  /\ (forall step e,
        In (PrintFinalStep step e) (out Well.ten_steps_run) -> step = 15)
  /\ In (PrintFinalStep 15 (oldEnergy Well.ten_steps_run))
        (out Well.ten_steps_run).
Proof.
  destruct (loop_runs_simSteps_iterations Well.backend Well.backend
              Well.ten_steps 12345 Well.clock) as [Hevery _].
  - simpl. lia.
  - apply Hevery. apply run_returned_eq. reflexivity.
Defined.

(** A run of no step reports NaN twice: the guard of the spec is not there. *)
Lemma ratio_guard_counterexample :
  ~ ratio_guarded
      (run Well.backend Well.backend Well.no_steps 12345 Well.clock).
Proof.
  intros Hguard.
  specialize (Hguard Well.no_steps_run).
  assert (Hnan : reported_ratios (out Well.no_steps_run)
                 = [S754_nan; S754_nan]) by (vm_compute; reflexivity).
  rewrite Hnan in Hguard.
  assert (Hall : Forall (fun f => Ieee.is_nan f = false) [S754_nan; S754_nan]).
  { apply Hguard; [apply run_returned_eq|]; reflexivity. }
  inversion Hall as [|f l Hf _]. discriminate Hf.
Qed.

Lemma ratio_of_zero_moves_is_nan_witness :
  accepted Well.no_steps_run + rejected Well.no_steps_run = 0
  /\ reported_ratios (out Well.no_steps_run) = [S754_nan; S754_nan].
Proof.
  split; [reflexivity|].
  destruct (ratio_of_zero_moves_is_nan Well.backend Well.backend Well.no_steps
              12345 Well.clock Well.no_steps_run) as (_ & _ & Hnan).
  - apply run_returned_eq. reflexivity.
  - apply Hnan. reflexivity.
Defined.

(** Step 9 is at offset 4 of a run with a state interval of 4. *)
Lemma checkpoint_cadence_witness :
  (exists path,
     In (9, path)
        (state_files
           (out (run_loop Well.backend Well.backend Well.ten_steps 12345 15))))
  <-> 5 <= 9 < 15 /\ 0 < 4 /\ 0 < 9 - 5 /\ (4 | 9 - 5).
Proof.
  apply (checkpoint_cadence Well.backend Well.backend Well.ten_steps 12345
           Well.clock Well.ten_steps_run 9).
  apply run_returned_eq. reflexivity.
Defined.

Lemma final_checkpoint_witness :
  state_files
    (final_output Well.ten_steps Well.clock 15
       (run_loop Well.backend Well.backend Well.ten_steps 12345 15))
  = [(15, "untitled_15.state")].
Proof.
  destruct (final_checkpoint Well.backend Well.backend Well.ten_steps 12345
              Well.clock Well.ten_steps_run) as (_ & Hwritten & _).
  - apply run_returned_eq. reflexivity.
  - apply Hwritten. simpl. lia.
Defined.

(** A fresh run named [first] and a run resumed at step 500, unnamed, with
    other intervals and another clock, on the same box. *)
Lemma runs_agree_witness :
  let sim1 := Well.sim "water.config" "first" 0 10 0 4 in
  let sim2 := Well.sim "resume.state" "" 500 10 3 (-1) in
  let r1 := returned (run_init Well.backend Well.backend sim1 12345)
                     (run Well.backend Well.backend sim1 12345 Well.clock) in
  let r2 := returned (run_init Well.backend Well.backend sim2 12345)
                     (run Well.backend Well.backend sim2 12345 Well.later) in
  map accept (history r1) = map accept (history r2)
  /\ oldEnergy r1 = oldEnergy r2
  /\ cur_box r1 = cur_box r2.
Proof.
  intros sim1 sim2 r1 r2.
  apply (runs_agree Well.backend Well.backend
           (Well.simArgs "water.config" "first" 10 0 4)
           (Well.simArgs "resume.state" "" 10 3 (-1))
           77 (-3) sim1 sim2 [PrintUsingSeed 12345] [PrintUsingSeed 12345]
           12345 12345 Well.clock Well.later r1 r2).
  - reflexivity.
  - reflexivity.
  - reflexivity.
  - reflexivity.
  - reflexivity.
  - apply run_returned_eq. reflexivity.
  - apply run_returned_eq. reflexivity.
Defined.


Example construction_without_input :
  Simulation_new Well.backend Well.backend (Well.simArgs "" "first" 10 0 4) 77
  = Exited "Error: Unable to initialize simulation Box" 1.
Proof. reflexivity. Qed.

Example construction_keeps_configured_steps :
  Simulation_new Well.backend Well.backend
                 (Well.simArgs "resume.state" "" 0 0 0) 77
  = Constructed Well.resumed [PrintUsingSeed 12345] 12345.
Proof. reflexivity. Qed.

(** * Further properties of the driver *)

Section MoreFacts.

Context {RA : RealArith} {BM : BoxModel}.
Variables SerialCalcs ParallelCalcs : EnergyBackend.

Local Abbreviation propose := (propose SerialCalcs ParallelCalcs).
Local Abbreviation mc_step := (mc_step SerialCalcs ParallelCalcs).
Local Abbreviation run_loop := (run_loop SerialCalcs ParallelCalcs).
Local Abbreviation run_init := (run_init SerialCalcs ParallelCalcs).
Local Abbreviation state_after := (state_after SerialCalcs ParallelCalcs).
Local Abbreviation run := (run SerialCalcs ParallelCalcs).
Local Abbreviation systemEnergy := (systemEnergy SerialCalcs ParallelCalcs).
Local Abbreviation Simulation_new := (Simulation_new SerialCalcs ParallelCalcs).
Local Abbreviation status_at := (status_at SerialCalcs ParallelCalcs).

(** *** Progress lines *)

Lemma status_due_iff sim move :
  status_due sim move = true
  <-> 0 < statusInterval (args sim)
      /\ (statusInterval (args sim) | move - stepStart sim).
Proof.
  unfold status_due, Int.rem.
  rewrite andb_true_iff, Z.eqb_eq, Z.gtb_lt. split.
  - intros [Hi Hr]. split; [lia|]. apply Z.rem_divide; [lia | exact Hr].
  - intros [Hi Hd]. split; [lia|]. apply Z.rem_divide; [lia | exact Hd].
Qed.

Lemma status_lines_app l1 l2 :
  status_lines (l1 ++ l2) = status_lines l1 ++ status_lines l2.
Proof. apply flat_map_app. Qed.

Lemma step_output_status_lines sim base move s :
  status_lines (step_output sim base move s)
  = if status_due sim move then [(move, oldEnergy s)] else [].
Proof.
  unfold step_output. rewrite status_lines_app.
  destruct (status_due sim move); destruct (checkpoint_due sim move);
    reflexivity.
Qed.

Lemma final_output_status_lines sim clk last s :
  status_lines (final_output sim clk last s) = [].
Proof.
  unfold final_output. rewrite !status_lines_app.
  destruct (stateInterval (args sim) >=? 0); reflexivity.
Qed.

Lemma state_after_status_lines sim g n :
  status_lines (out (state_after sim g n))
  = flat_map (status_at sim g) (seq 0 n).
Proof.
  induction n as [|n IH].
  - reflexivity.
  - rewrite state_after_S, mc_step_out, status_lines_app, IH.
    rewrite step_output_status_lines, seq_S, flat_map_app. simpl.
    now rewrite app_nil_r.
Qed.

(** X1. A progress line is printed for a step exactly when the step is one
    of the loop, the status interval is strictly positive and it divides the
    offset of the step from [stepStart] (the offset zero included); the
    energy printed is the running energy at the boundary before the step. *)
Theorem status_cadence sim g clk r move e :
  run sim g clk = Returned r ->
  (In (move, e) (status_lines (out r))
   <-> exists k : nat,
         move = stepStart sim + Z.of_nat k
         /\ Z.of_nat k < simSteps sim
         /\ 0 < statusInterval (args sim)
         /\ (statusInterval (args sim) | Z.of_nat k)
         /\ e = oldEnergy (state_after sim g k)).
Proof.
  intros Hrun.
  destruct (run_Returned _ _ _ _ _ _ Hrun) as (last & _ & -> & _ & Ho & _).
  rewrite Ho, status_lines_app, final_output_status_lines, app_nil_r.
  rewrite run_loop_state_after, state_after_status_lines, in_flat_map.
  replace (stepStart sim + simSteps sim - stepStart sim) with (simSteps sim)
    by lia.
  split.
  - intros (k & Hk & Hin). apply in_seq in Hk. exists k.
    unfold status_at in Hin.
    destruct (status_due sim (stepStart sim + Z.of_nat k)) eqn:Hdue;
      [|contradiction].
    destruct Hin as [Heq|[]]. injection Heq as <- <-.
    apply status_due_iff in Hdue. destruct Hdue as [Hi Hd].
    replace (stepStart sim + Z.of_nat k - stepStart sim) with (Z.of_nat k)
      in Hd by lia.
    repeat split; try assumption; lia.
  - intros (k & -> & Hk & Hi & Hd & ->). exists k. split.
    + apply in_seq. lia.
    + unfold status_at.
      replace (status_due sim (stepStart sim + Z.of_nat k)) with true.
      * left. reflexivity.
      * symmetry. apply status_due_iff. split; [exact Hi|].
        now replace (stepStart sim + Z.of_nat k - stepStart sim)
          with (Z.of_nat k) by lia.
Qed.

(** *** Counters *)

Lemma verdicts_app v h1 h2 : verdicts v (h1 ++ h2) = verdicts v h1 + verdicts v h2.
Proof. unfold verdicts. rewrite filter_app, length_app. lia. Qed.

Lemma mc_step_verdicts sim kT base move s :
  accepted s = verdicts true (history s) ->
  rejected s = verdicts false (history s) ->
  accepted (mc_step sim kT base move s)
  = verdicts true (history (mc_step sim kT base move s))
  /\ rejected (mc_step sim kT base move s)
     = verdicts false (history (mc_step sim kT base move s)).
Proof.
  intros Ha Hr. unfold mc_step.
  destruct (propose sim kT move s) as [[m b1] g3].
  destruct (accept m) eqn:Hm; simpl; rewrite !verdicts_app, <- Ha, <- Hr;
    unfold verdicts; simpl; rewrite Hm; simpl; lia.
Qed.

Lemma state_after_verdicts sim g k :
  accepted (state_after sim g k)
  = verdicts true (history (state_after sim g k))
  /\ rejected (state_after sim g k)
     = verdicts false (history (state_after sim g k)).
Proof.
  induction k as [|k [IHa IHr]].
  - split; reflexivity.
  - rewrite state_after_S. now apply mc_step_verdicts.
Qed.

(** What the final report consists of. *)
Lemma final_output_inv sim clk last s o :
  In o (final_output sim clk last s) ->
  o = PrintFinalStep last (oldEnergy s)
  \/ (0 <= stateInterval (args sim)
      /\ In o (saveState (cur_box s) (baseStateFile (args sim)) last))
  \/ o = PrintSummary (simSteps sim) (oldEnergy s)
                      (startTime clk, endTime clk) (accepted s) (rejected s)
                      (acceptanceRatio (accepted s) (rejected s))
  \/ o = ResultsFile (resultsName (args sim)) (results sim clk s)
  \/ o = PdbFile (pdbName (args sim)) (cur_box s).
Proof.
  unfold final_output, writePDB. intros Hin.
  apply in_app_or in Hin. destruct Hin as [[<-|[]]|Hin]; [now left|].
  apply in_app_or in Hin. destruct Hin as [Hin|Hin].
  - right. left. destruct (stateInterval (args sim) >=? 0) eqn:Hi;
      [|contradiction].
    split; [|exact Hin]. apply Z.geb_le in Hi. lia.
  - apply in_app_or in Hin.
    destruct Hin as [[<-|[<-|[]]]|[<-|[]]]; auto.
Qed.

Lemma run_results_file sim g clk r path res :
  run sim g clk = Returned r ->
  In (ResultsFile path res) (out r) ->
  path = resultsName (args sim)
  /\ res = results sim clk (run_loop sim g (stepStart sim + simSteps sim)).
Proof.
  intros Hrun Hin.
  destruct (run_Returned _ _ _ _ _ _ Hrun) as (last & _ & -> & _ & Ho & _).
  rewrite Ho in Hin. apply in_app_or in Hin. destruct Hin as [Hin|Hin].
  - pose proof (run_loop_output SerialCalcs ParallelCalcs sim g
                  (stepStart sim + simSteps sim)) as Hl.
    rewrite Forall_forall in Hl. apply Hl in Hin. discriminate.
  - apply final_output_inv in Hin.
    destruct Hin as [Heq|[[_ Hin]|[Heq|[Heq|Heq]]]]; try discriminate.
    + rewrite saveState_eq in Hin. destruct Hin as [?|[?|[]]]; discriminate.
    + now injection Heq as -> ->.
Qed.

(** X2. The counters a run ends with, and the counts it writes to the
    results file, are the numbers of accepted and of rejected moves among
    the moves it made. *)
Theorem counters_count_moves sim g clk r :
  run sim g clk = Returned r ->
  accepted r = verdicts true (history r)
  /\ rejected r = verdicts false (history r)
  /\ forall path res, In (ResultsFile path res) (out r) ->
       Accepted_Moves res = verdicts true (history r)
       /\ Rejected_Moves res = verdicts false (history r).
Proof.
  intros Hrun.
  destruct (run_Returned _ _ _ _ _ _ Hrun)
    as (last & _ & -> & Hh & Ho & _ & _ & Ha & Hr).
  pose proof (state_after_verdicts sim g
    (Z.to_nat (stepStart sim + simSteps sim - stepStart sim))) as [Hva Hvr].
  rewrite <- run_loop_state_after in Hva, Hvr.
  split; [|split].
  - now rewrite Ha, Hh.
  - now rewrite Hr, Hh.
  - intros path res Hin.
    destruct (run_results_file _ _ _ _ _ _ Hrun Hin) as [_ ->]. simpl.
    now rewrite Hh.
Qed.

(** *** State files *)

Lemma saveState_written_as_found b base simStep state_at :
  state_at simStep = b ->
  Forall (state_written_as_found base state_at) (saveState b base simStep).
Proof.
  intros Hb. rewrite saveState_eq. repeat constructor; simpl; auto.
Qed.

Lemma state_after_written_as_found sim g n :
  Forall (state_written_as_found (baseStateFile (args sim))
            (fun step =>
               cur_box (state_after sim g (Z.to_nat (step - stepStart sim)))))
         (out (state_after sim g n)).
Proof.
  induction n as [|n IH].
  - simpl. repeat constructor.
  - rewrite state_after_S, mc_step_out. apply Forall_app. split; [exact IH|].
    unfold step_output. apply Forall_app. split.
    + destruct (status_due sim _); repeat constructor.
    + destruct (checkpoint_due sim _); [|constructor].
      apply saveState_written_as_found.
      now replace (Z.to_nat (stepStart sim + Z.of_nat n - stepStart sim))
        with n by lia.
Qed.

(** X3. Every state file a run writes for a step holds the box as it is at
    that step boundary, that is after [step - stepStart] iterations, with
    the environment and the molecule count of that box, under the name
    [<base>_<step>.state]. *)
Theorem state_file_holds_boundary_state sim g clk r o :
  run sim g clk = Returned r ->
  In o (out r) ->
  state_written_as_found (baseStateFile (args sim))
    (fun step => cur_box (state_after sim g (Z.to_nat (step - stepStart sim))))
    o.
Proof.
  intros Hrun Hin.
  destruct (run_Returned _ _ _ _ _ _ Hrun) as (last & _ & -> & _ & Ho & _).
  rewrite Ho in Hin. apply in_app_or in Hin. destruct Hin as [Hin|Hin].
  - rewrite run_loop_state_after in Hin.
    pose proof (state_after_written_as_found sim g
      (Z.to_nat (stepStart sim + simSteps sim - stepStart sim))) as Hall.
    rewrite Forall_forall in Hall. now apply Hall.
  - apply final_output_inv in Hin.
    destruct Hin as [-> | [[_ Hin] | [-> | [-> | ->]]]]; simpl; auto.
    pose proof (saveState_written_as_found
      (cur_box (run_loop sim g (stepStart sim + simSteps sim)))
      (baseStateFile (args sim)) (stepStart sim + simSteps sim)
      (fun step =>
         cur_box (state_after sim g (Z.to_nat (step - stepStart sim)))))
      as Hall.
    rewrite Forall_forall in Hall. apply Hall; [|exact Hin].
    now rewrite run_loop_state_after.
Qed.

End MoreFacts.

(** * Names of the state files *)

Lemma string_length_append (s t : string) :
  String.length (s ++ t) = (String.length s + String.length t)%nat.
Proof. induction s as [|c s IH]; simpl; [reflexivity | now rewrite IH]. Qed.

Lemma string_append_inj_l (s t u : string) :
  (s ++ t)%string = (s ++ u)%string -> t = u.
Proof.
  induction s as [|c s IH]; simpl; intros Heq; [exact Heq|].
  injection Heq as Heq. now apply IH.
Qed.

Lemma string_append_inj_r (t s u : string) :
  (s ++ t)%string = (u ++ t)%string -> s = u.
Proof.
  revert u. induction s as [|c s IH]; intros [|d u] Heq; simpl in Heq.
  - reflexivity.
  - apply (f_equal String.length) in Heq. simpl in Heq.
    rewrite string_length_append in Heq. lia.
  - apply (f_equal String.length) in Heq. simpl in Heq.
    rewrite string_length_append in Heq. lia.
  - injection Heq as -> Heq. f_equal. now apply IH.
Qed.

Lemma string_prefix_append (s t : string) : String.prefix s (s ++ t) = true.
Proof.
  induction s as [|c s IH]; simpl.
  - now destruct t.
  - destruct (Ascii.ascii_dec c c); [exact IH | contradiction].
Qed.

(** The decimal numeral of an integer determines the integer. *)
Lemma decimal_inj (a b : Z) :
  DecimalString.NilZero.string_of_int (Z.to_int a)
  = DecimalString.NilZero.string_of_int (Z.to_int b) ->
  a = b.
Proof.
  assert (Hparse : forall z,
            DecimalString.NilZero.int_of_string
              (DecimalString.NilZero.string_of_int (Z.to_int z))
            = Some (Z.to_int z)).
  { intros z. apply DecimalString.NilZero.isi.
    - destruct z; simpl; try discriminate.
      intros Heq. injection Heq as Heq.
      now apply DecimalPos.Unsigned.to_uint_nonnil in Heq.
    - destruct z; simpl; try discriminate.
      intros Heq. injection Heq as Heq.
      now apply DecimalPos.Unsigned.to_uint_nonnil in Heq. }
  intros Heq. apply DecimalZ.to_int_inj.
  pose proof (Hparse a) as Ha. rewrite Heq, Hparse in Ha.
  now injection Ha.
Qed.

(** X4. Under one base name, state files of different steps have different
    names. *)
Theorem state_file_name_inj (base : string) (step1 step2 : Z) :
  state_file_name base step1 = state_file_name base step2 -> step1 = step2.
Proof.
  unfold state_file_name. intros Heq.
  apply string_append_inj_l, string_append_inj_l in Heq.
  apply string_append_inj_r in Heq. now apply decimal_inj.
Qed.

Lemma Zrange_NoDup lo n : NoDup (Zrange lo n).
Proof.
  revert lo. induction n as [|n IH]; intros lo; simpl; constructor.
  - rewrite Zrange_In. lia.
  - apply IH.
Qed.

Lemma NoDup_map_injective {A B : Type} (f : A -> B) (l : list A) :
  (forall x y, f x = f y -> x = y) -> NoDup l -> NoDup (map f l).
Proof.
  intros Hinj. induction 1 as [|x l Hx _ IH]; simpl; constructor; [|exact IH].
  rewrite in_map_iff. intros (y & Heq & Hy). apply Hinj in Heq. now subst.
Qed.

(** The quotient grows by one exactly at the multiples of the divisor. *)
Lemma div_succ (m k : Z) :
  0 <= m -> 0 < k ->
  (m + 1) / k = m / k + (if (m + 1) mod k =? 0 then 1 else 0).
Proof.
  intros Hm Hk.
  pose proof (Z.div_mod m k ltac:(lia)) as Hdm.
  pose proof (Z.mod_pos_bound m k Hk) as Hr.
  destruct (Z.eq_dec (m mod k + 1) k) as [Hfull|Hpart].
  - assert (Hmul : m + 1 = (m / k + 1) * k) by lia.
    rewrite Hmul, Z.div_mul, Z.mod_mul by lia. simpl. lia.
  - assert (Hq : (m + 1) / k = m / k)
      by (symmetry; apply (Z.div_unique (m + 1) k (m / k) (m mod k + 1)); lia).
    assert (Hmod : (m + 1) mod k = m mod k + 1)
      by (symmetry; apply (Z.mod_unique (m + 1) k (m / k) (m mod k + 1)); lia).
    rewrite Hq, Hmod.
    replace (m mod k + 1 =? 0) with false by (symmetry; apply Z.eqb_neq; lia).
    lia.
Qed.

Section Artifacts.

Context {RA : RealArith} {BM : BoxModel}.
Variables SerialCalcs ParallelCalcs : EnergyBackend.

Local Abbreviation run_loop := (run_loop SerialCalcs ParallelCalcs).
Local Abbreviation run_init := (run_init SerialCalcs ParallelCalcs).
Local Abbreviation state_after := (state_after SerialCalcs ParallelCalcs).
Local Abbreviation run := (run SerialCalcs ParallelCalcs).
Local Abbreviation systemEnergy := (systemEnergy SerialCalcs ParallelCalcs).
Local Abbreviation Simulation_new := (Simulation_new SerialCalcs ParallelCalcs).

Lemma artifacts_app l1 l2 : artifacts (l1 ++ l2) = artifacts l1 ++ artifacts l2.
Proof. apply flat_map_app. Qed.

Lemma step_output_artifacts sim base move (s : RunState) :
  artifacts (step_output sim base move s)
  = if checkpoint_due sim move then [state_file_name base move] else [].
Proof.
  unfold step_output. rewrite artifacts_app.
  destruct (status_due sim move); destruct (checkpoint_due sim move);
    reflexivity.
Qed.

Lemma state_after_artifacts sim g n :
  artifacts (out (state_after sim g n))
  = map (state_file_name (baseStateFile (args sim)))
        (filter (checkpoint_due sim) (Zrange (stepStart sim) n)).
Proof.
  induction n as [|n IH].
  - reflexivity.
  - rewrite (state_after_S SerialCalcs ParallelCalcs), mc_step_out.
    rewrite artifacts_app, IH, step_output_artifacts.
    rewrite Zrange_snoc, filter_app, map_app. f_equal. simpl.
    now destruct (checkpoint_due sim _).
Qed.

Lemma run_artifacts sim g clk r :
  run sim g clk = Returned r ->
  artifacts (out r)
  = map (state_file_name (baseStateFile (args sim))) (saved_steps sim)
    ++ [resultsName (args sim); pdbName (args sim)].
Proof.
  intros Hrun.
  destruct (run_Returned _ _ _ _ _ _ Hrun) as (last & _ & -> & _ & Ho & _).
  rewrite Ho, artifacts_app, (run_loop_state_after SerialCalcs ParallelCalcs).
  rewrite state_after_artifacts.
  replace (stepStart sim + simSteps sim - stepStart sim) with (simSteps sim)
    by lia.
  unfold saved_steps. rewrite map_app, <- app_assoc. f_equal.
  unfold final_output. rewrite !artifacts_app.
  destruct (stateInterval (args sim) >=? 0); reflexivity.
Qed.

(** X5. The files a run writes, in the order it writes them: the state
    files of the loop by increasing step, the final state file unless the
    state interval is negative, then the results file, then the coordinate
    file; one results file and one coordinate file, and nothing after
    them. *)
Theorem files_written_in_order sim g clk r :
  run sim g clk = Returned r ->
  artifacts (out r)
  = map (state_file_name (baseStateFile (args sim))) (saved_steps sim)
    ++ [resultsName (args sim); pdbName (args sim)].
Proof.
  intros Hrun.
  destruct (run_Returned _ _ _ _ _ _ Hrun) as (last & _ & -> & _ & Ho & _).
  rewrite Ho, artifacts_app, (run_loop_state_after SerialCalcs ParallelCalcs).
  rewrite state_after_artifacts.
  replace (stepStart sim + simSteps sim - stepStart sim) with (simSteps sim)
    by lia.
  unfold saved_steps. rewrite map_app, <- app_assoc. f_equal.
  unfold final_output. rewrite !artifacts_app.
  destruct (stateInterval (args sim) >=? 0); reflexivity.
Qed.

Lemma saved_steps_NoDup sim : NoDup (saved_steps sim).
Proof.
  unfold saved_steps. apply NoDup_app.
  - apply NoDup_filter, Zrange_NoDup.
  - destruct (stateInterval (args sim) >=? 0); repeat constructor. intros [].
  - intros step Hin Hlast. apply filter_In in Hin. destruct Hin as [Hin _].
    apply Zrange_In in Hin.
    destruct (stateInterval (args sim) >=? 0); [|contradiction].
    destruct Hlast as [<-|[]]. lia.
Qed.

Lemma run_state_files sim g clk r :
  run sim g clk = Returned r ->
  state_files (out r)
  = map (fun step => (step, state_file_name (baseStateFile (args sim)) step))
        (saved_steps sim).
Proof.
  intros Hrun.
  destruct (run_Returned _ _ _ _ _ _ Hrun) as (last & _ & -> & _ & Ho & _).
  rewrite Ho, state_files_app, (run_loop_state_after SerialCalcs ParallelCalcs).
  rewrite (state_after_state_files SerialCalcs ParallelCalcs).
  rewrite final_output_state_files.
  replace (stepStart sim + simSteps sim - stepStart sim) with (simSteps sim)
    by lia.
  unfold saved_steps. rewrite map_app. f_equal.
  now destruct (stateInterval (args sim) >=? 0).
Qed.

(** X6. No state file of a run overwrites another: the state files a run
    writes have pairwise different names. *)
Theorem state_files_never_overwritten sim g clk r :
  run sim g clk = Returned r ->
  NoDup (map snd (state_files (out r))).
Proof.
  intros Hrun. rewrite (run_state_files _ _ _ _ Hrun), map_map. simpl.
  apply NoDup_map_injective; [|apply saved_steps_NoDup].
  intros x y. apply state_file_name_inj.
Qed.

Lemma checkpoint_due_offset sim (n : nat) :
  0 < stateInterval (args sim) ->
  checkpoint_due sim (stepStart sim + Z.of_nat (S n))
  = (Z.of_nat (S n) mod stateInterval (args sim) =? 0).
Proof.
  intros Hk. unfold checkpoint_due, Int.rem.
  replace (stepStart sim + Z.of_nat (S n) - stepStart sim)
    with (Z.of_nat (S n)) by lia.
  rewrite Z.rem_mod_nonneg by lia.
  replace (stateInterval (args sim) >? 0) with true
    by (symmetry; apply Z.gtb_lt; lia).
  replace (stepStart sim + Z.of_nat (S n) >? stepStart sim) with true
    by (symmetry; apply Z.gtb_lt; lia).
  reflexivity.
Qed.

Lemma checkpoints_counted sim (n : nat) :
  0 < stateInterval (args sim) ->
  Z.of_nat (List.length (filter (checkpoint_due sim)
                                (Zrange (stepStart sim) (S n))))
  = Z.of_nat n / stateInterval (args sim).
Proof.
  intros Hk. induction n as [|n IH].
  - simpl. unfold checkpoint_due.
    replace (stepStart sim >? stepStart sim) with false
      by (symmetry; rewrite Z.gtb_ltb; apply Z.ltb_ge; lia).
    rewrite andb_false_r. simpl. now rewrite Z.div_0_l by lia.
  - rewrite Zrange_snoc, filter_app, length_app, Nat2Z.inj_add, IH.
    cbn [filter]. rewrite checkpoint_due_offset by exact Hk.
    replace (Z.of_nat (S n)) with (Z.of_nat n + 1) by lia.
    rewrite (div_succ (Z.of_nat n)) by lia.
    now destruct (_ =? 0).
Qed.

(** X7. With a strictly positive state interval a run of [simSteps > 0]
    steps writes [(simSteps - 1) / stateInterval] state files during the
    loop and one more after it. *)
Theorem state_files_counted sim g clk r :
  run sim g clk = Returned r ->
  0 < simSteps sim ->
  0 < stateInterval (args sim) ->
  Z.of_nat (List.length (state_files (out r)))
  = (simSteps sim - 1) / stateInterval (args sim) + 1.
Proof.
  intros Hrun Hsteps Hk.
  rewrite (run_state_files _ _ _ _ Hrun), length_map. unfold saved_steps.
  replace (stateInterval (args sim) >=? 0) with true
    by (symmetry; apply Z.geb_le; lia).
  rewrite length_app, Nat2Z.inj_add. simpl List.length at 2.
  replace (Z.to_nat (simSteps sim)) with (S (Z.to_nat (simSteps sim - 1)))
    by lia.
  rewrite checkpoints_counted by exact Hk.
  rewrite Z2Nat.id by lia. lia.
Qed.

(** X8. With a non-empty simulation name every file of a run is named after
    it: each path the run writes begins with the simulation name. *)
Theorem named_run_keeps_its_files_together sim g clk r :
  simulationName (args sim) <> "" ->
  run sim g clk = Returned r ->
  Forall (fun path => String.prefix (simulationName (args sim)) path = true)
         (artifacts (out r)).
Proof.
  intros Hname Hrun. rewrite (run_artifacts _ _ _ _ Hrun).
  assert (Hne : String.eqb (simulationName (args sim)) "" = false)
    by (now apply String.eqb_neq).
  apply Forall_app. split.
  - apply Forall_forall. intros path Hin. apply in_map_iff in Hin.
    destruct Hin as (step & <- & _).
    unfold state_file_name, baseStateFile. rewrite Hne. simpl.
    apply string_prefix_append.
  - unfold resultsName, pdbName. rewrite Hne.
    repeat constructor; apply string_prefix_append.
Qed.

(** *** Edge cases and composition *)

Lemma run_loop_no_steps sim g last :
  last <= stepStart sim -> run_loop sim g last = run_init sim g.
Proof. intros Hle. unfold run_loop. now apply for_loop_ge. Qed.

(** X9. A run whose step count is zero or negative makes no move: the box
    and the random source are left as they were, both counters are zero, no
    progress line is printed, and the energy it reports is the system energy
    of the initial box. *)
Theorem run_without_steps sim g clk r :
  simSteps sim <= 0 ->
  run sim g clk = Returned r ->
  history r = [] /\ cur_box r = box sim /\ cur_rng r = g
  /\ accepted r = 0 /\ rejected r = 0
  /\ oldEnergy r = systemEnergy (simulationMode (args sim)) (box sim)
  /\ status_lines (out r) = [].
Proof.
  intros Hsteps Hrun. unfold run in Hrun.
  destruct (Int.add (stepStart sim) (simSteps sim)) as [last|] eqn:Hadd;
    [|discriminate].
  unfold Int.add in Hadd. destruct (Int.in_range _); [|discriminate].
  injection Hadd as <-. injection Hrun as <-.
  rewrite run_loop_no_steps by lia.
  cbn [history cur_box cur_rng accepted rejected oldEnergy out].
  rewrite status_lines_app, final_output_status_lines.
  unfold run_init. simpl. rewrite Req_zero. repeat split; reflexivity.
Qed.

Lemma Simulation_new_steps simArgs simSteps0 sim cout g :
  Simulation_new simArgs simSteps0 = Constructed sim cout g ->
  0 < stepCount simArgs ->
  simSteps sim = stepCount simArgs.
Proof.
  unfold Simulation_new.
  destruct (if SimulationMode_eqb _ _ then _ else _)
    as [[[bx|] stepStart1] simSteps1]; [|discriminate].
  intros Heq Hcount. injection Heq as <- _ _. simpl.
  now replace (stepCount simArgs >? 0) with true
    by (symmetry; apply Z.gtb_lt; lia).
Qed.

(** X10. A strictly positive step count given by the caller is the number
    of moves of the run of the constructed simulation, whatever the factory
    read from the configuration, and it is the step count written to the
    results file. *)
Theorem override_is_number_of_moves simArgs simSteps0 sim cout g clk r :
  Simulation_new simArgs simSteps0 = Constructed sim cout g ->
  0 < stepCount simArgs ->
  run sim g clk = Returned r ->
  Z.of_nat (List.length (history r)) = stepCount simArgs
  /\ accepted r + rejected r = stepCount simArgs
  /\ forall path res, In (ResultsFile path res) (out r) ->
       Steps res = stepCount simArgs.
Proof.
  intros Hnew Hcount Hrun.
  pose proof (Simulation_new_steps _ _ _ _ _ Hnew Hcount) as Hsteps.
  destruct (run_Returned _ _ _ _ _ _ Hrun)
    as (last & _ & -> & Hh & _ & _ & _ & Ha & Hr).
  rewrite (run_loop_state_after SerialCalcs ParallelCalcs) in Hh, Ha, Hr.
  replace (stepStart sim + simSteps sim - stepStart sim) with (simSteps sim)
    in Hh, Ha, Hr by lia.
  destruct (state_after_indices SerialCalcs ParallelCalcs sim g
              (Z.to_nat (simSteps sim))) as [Hi Hc].
  split; [|split].
  - rewrite Hh, <- (length_map move_index), Hi, Zrange_length. lia.
  - rewrite Ha, Hr, Hc. lia.
  - intros path res Hin.
    destruct (run_results_file _ _ _ _ _ _ _ _ Hrun Hin) as [_ ->].
    simpl. exact Hsteps.
Qed.

Lemma run_pdb_file sim g clk r path b :
  run sim g clk = Returned r ->
  In (PdbFile path b) (out r) ->
  path = pdbName (args sim) /\ b = cur_box r.
Proof.
  intros Hrun Hin.
  destruct (run_Returned _ _ _ _ _ _ Hrun)
    as (last & _ & -> & _ & Ho & _ & Hb & _).
  rewrite Ho in Hin. apply in_app_or in Hin. destruct Hin as [Hin|Hin].
  - pose proof (run_loop_output SerialCalcs ParallelCalcs sim g
                  (stepStart sim + simSteps sim)) as Hl.
    rewrite Forall_forall in Hl. apply Hl in Hin. discriminate.
  - apply final_output_inv in Hin.
    destruct Hin as [Heq|[[_ Hin]|[Heq|[Heq|Heq]]]]; try discriminate.
    + rewrite saveState_eq in Hin. destruct Hin as [?|[?|[]]]; discriminate.
    + injection Heq as -> ->. now rewrite Hb.
Qed.

(** X11. The results file and the coordinate file of a run describe one
    configuration: under the contracts of the collaborators the final energy
    of the results file is the system energy of the box written to the
    coordinate file; the molecule count is that of the same box, and the
    two move counts add up to the step count (to zero for a negative one). *)
Theorem report_describes_final_box sim g clk r path res pdb b
  (mode := simulationMode (args sim))
  (contribution_contract : forall idx bx rg,
     systemEnergy mode (fst (changeMolecule idx bx rg))
     = Radd (systemEnergy mode bx)
            (Rsub (molecularEnergyContribution SerialCalcs ParallelCalcs mode
                     (fst (changeMolecule idx bx rg)) idx)
                  (molecularEnergyContribution SerialCalcs ParallelCalcs mode
                     bx idx)))
  (rollback_contract : forall idx bx rg,
     systemEnergy mode (rollback idx (fst (changeMolecule idx bx rg)))
     = systemEnergy mode bx) :
  run sim g clk = Returned r ->
  In (ResultsFile path res) (out r) ->
  In (PdbFile pdb b) (out r) ->
  Final_Energy res = systemEnergy mode b
  /\ Molecule_Count res = numOfMolecules (getEnvironment b)
  /\ Accepted_Moves res + Rejected_Moves res = Z.max 0 (Steps res).
Proof.
  intros Hrun Hres Hpdb.
  destruct (run_results_file _ _ _ _ _ _ _ _ Hrun Hres) as [_ ->].
  destruct (run_pdb_file _ _ _ _ _ _ Hrun Hpdb) as [_ ->].
  destruct (run_Returned _ _ _ _ _ _ Hrun)
    as (last & _ & -> & _ & _ & _ & Hb & _).
  rewrite Hb, (run_loop_state_after SerialCalcs ParallelCalcs). simpl.
  set (n := Z.to_nat (stepStart sim + simSteps sim - stepStart sim)).
  split; [|split].
  - apply (state_after_energy_tracked SerialCalcs ParallelCalcs sim
             contribution_contract rollback_contract).
  - reflexivity.
  - destruct (state_after_indices SerialCalcs ParallelCalcs sim g n)
      as [_ Hc].
    rewrite Hc. unfold n. lia.
Qed.

Lemma run_writes_report sim g clk r :
  run sim g clk = Returned r ->
  In (ResultsFile (resultsName (args sim))
        (results sim clk (run_loop sim g (stepStart sim + simSteps sim))))
     (out r)
  /\ In (PdbFile (pdbName (args sim)) (cur_box r)) (out r).
Proof.
  intros Hrun.
  destruct (run_Returned _ _ _ _ _ _ Hrun)
    as (last & _ & -> & _ & Ho & _ & Hb & _).
  rewrite Ho, Hb. split; apply in_or_app; right; apply final_output_files.
Qed.

End Artifacts.

(** * The further properties on the one-particle system *)

Lemma Named_result : 
  run Well.backend Well.backend Named.sim 12345 Well.clock
  = Returned Named.result.
Proof. apply run_returned_eq. reflexivity. Qed.

Lemma ten_steps_result :
  run Well.backend Well.backend Well.ten_steps 12345 Well.clock
  = Returned Well.ten_steps_run.
Proof. apply run_returned_eq. reflexivity. Qed.

(** Step 8 is at offset 3. *)
Lemma status_cadence_witness :
  In (8, oldEnergy (state_after Well.backend Well.backend Named.sim 12345 3))
     (status_lines (out Named.result)).
Proof.
  refine (proj2 (status_cadence Well.backend Well.backend Named.sim 12345
                   Well.clock Named.result 8
                   (oldEnergy (state_after Well.backend Well.backend
                                           Named.sim 12345 3))
                   Named_result) _).
  exists 3%nat. split; [reflexivity|]. split; [reflexivity|].
  split; [reflexivity|]. split; [exists 1; reflexivity | reflexivity].
Defined.

Lemma counters_count_moves_witness :
  accepted Well.ten_steps_run = verdicts true (history Well.ten_steps_run)
  /\ rejected Well.ten_steps_run = verdicts false (history Well.ten_steps_run).
Proof.
  destruct (counters_count_moves Well.backend Well.backend Well.ten_steps
              12345 Well.clock Well.ten_steps_run ten_steps_result)
    as (Ha & Hr & _).
  now split.
Defined.

(** The fourth output of the run is the state file of step 9. *)
Lemma state_file_holds_boundary_state_witness :
  state_written_as_found (baseStateFile (args Well.ten_steps))
    (fun step =>
       cur_box (state_after Well.backend Well.backend Well.ten_steps 12345
                            (Z.to_nat (step - stepStart Well.ten_steps))))
    (nth 3 (out Well.ten_steps_run) (PrintRunning 0)).
Proof.
  apply (state_file_holds_boundary_state Well.backend Well.backend
           Well.ten_steps 12345 Well.clock Well.ten_steps_run _
           ten_steps_result).
  refine (nth_In _ _ _).
  assert (Hlen : List.length (out Well.ten_steps_run) = 12%nat)
    by (vm_compute; reflexivity).
  rewrite Hlen. lia.
Defined.

Lemma state_file_name_inj_witness : 1000 = 1000.
Proof.
  apply (state_file_name_inj "waterCPU" 1000 1000). reflexivity.
Defined.

Lemma files_written_in_order_witness :
  artifacts (out Named.result)
  = map (state_file_name (baseStateFile (args Named.sim)))
        (saved_steps Named.sim)
    ++ [resultsName (args Named.sim); pdbName (args Named.sim)].
Proof.
  apply (files_written_in_order Well.backend Well.backend Named.sim 12345
           Well.clock Named.result Named_result).
Defined.

Example named_run_files :
  artifacts (out Named.result)
  = ["water_9.state"; "water_13.state"; "water_15.state";
     "water.results"; "water.pdb"].
Proof. vm_compute. reflexivity. Qed.

Lemma state_files_never_overwritten_witness :
  NoDup (map snd (state_files (out Named.result))).
Proof.
  apply (state_files_never_overwritten Well.backend Well.backend Named.sim
           12345 Well.clock Named.result Named_result).
Defined.

Lemma state_files_counted_witness :
  Z.of_nat (List.length (state_files (out Named.result))) = (10 - 1) / 4 + 1.
Proof.
  apply (state_files_counted Well.backend Well.backend Named.sim 12345
           Well.clock Named.result Named_result); simpl; lia.
Defined.

Lemma named_run_keeps_its_files_together_witness :
  Forall (fun path => String.prefix "water" path = true)
         (artifacts (out Named.result)).
Proof.
  apply (named_run_keeps_its_files_together Well.backend Well.backend
           Named.sim 12345 Well.clock Named.result).
  - discriminate.
  - exact Named_result.
Defined.

Lemma run_without_steps_witness :
  history Well.no_steps_run = [] /\ cur_box Well.no_steps_run = Well.initial 12345.
Proof.
  destruct (run_without_steps Well.backend Well.backend Well.no_steps 12345
              Well.clock Well.no_steps_run) as (Hh & Hb & _).
  - simpl. lia.
  - apply run_returned_eq. reflexivity.
  - now split.
Defined.

(** The configuration asks for 1000 steps, the caller for 10. *)
Lemma override_is_number_of_moves_witness :
  Z.of_nat (List.length (history Named.fresh_result)) = 10
  /\ accepted Named.fresh_result + rejected Named.fresh_result = 10.
Proof.
  destruct (override_is_number_of_moves Well.backend Well.backend
              (args Named.fresh) 77 Named.fresh [PrintUsingSeed 12345] 12345
              Well.clock Named.fresh_result)
    as (Hn & Hc & _).
  - reflexivity.
  - simpl. lia.
  - apply run_returned_eq. reflexivity.
  - split; [exact Hn | exact Hc].
Defined.

(** * Loops over arrays *)

Section ArrayLoop.

Context {T A : Type}.
Variable f : Z -> T -> A -> option A.

Lemma for_each_index_lt (body : Z -> A -> option A) bound i a :
  i < bound ->
  for_each_index body bound i a
  = match body i a with
    | Some a' => for_each_index body bound (i + 1) a'
    | None => None
    end.
Proof.
  intros Hlt. rewrite for_each_index_equation_1.
  destruct (Z_lt_dec i bound); [|contradiction].
  simpl. now destruct (body i a).
Qed.

Lemma for_each_index_ge (body : Z -> A -> option A) bound i a :
  bound <= i -> for_each_index body bound i a = Some a.
Proof.
  intros Hge. rewrite for_each_index_equation_1.
  destruct (Z_lt_dec i bound); [lia | reflexivity].
Qed.

Lemma read_middle (pre rest : list T) (t : T) :
  read (pre ++ t :: rest) (Z.of_nat (List.length pre)) = Some t.
Proof.
  unfold read.
  replace (Z.of_nat (List.length pre) <? 0) with false
    by (symmetry; apply Z.ltb_ge; lia).
  rewrite Nat2Z.id, nth_error_app2 by lia.
  now rewrite Nat.sub_diag.
Qed.

Lemma read_end (arr : list T) :
  read arr (Z.of_nat (List.length arr)) = None.
Proof.
  unfold read.
  replace (Z.of_nat (List.length arr) <? 0) with false
    by (symmetry; apply Z.ltb_ge; lia).
  rewrite Nat2Z.id. apply nth_error_None. lia.
Qed.

(** A counted loop that reads [arr[i]] at each index, within the array. *)
Lemma for_each_index_read_from (rest pre : list T) bound a :
  bound <= Z.of_nat (List.length (pre ++ rest)) ->
  for_each_index
    (fun i acc => match read (pre ++ rest) i with
                  | Some t => f i t acc
                  | None => None
                  end)
    bound (Z.of_nat (List.length pre)) a
  = fold_indexed f (Z.of_nat (List.length pre))
      (firstn (Z.to_nat (bound - Z.of_nat (List.length pre))) rest) a.
Proof.
  revert pre a. induction rest as [|t rest IH]; intros pre a Hbound.
  - rewrite app_nil_r in Hbound. rewrite for_each_index_ge by lia.
    now rewrite firstn_nil.
  - destruct (Z_lt_dec (Z.of_nat (List.length pre)) bound) as [Hlt|Hge].
    + rewrite for_each_index_lt by exact Hlt. rewrite read_middle.
      replace (Z.to_nat (bound - Z.of_nat (List.length pre)))
        with (S (Z.to_nat (bound - Z.of_nat (List.length (pre ++ [t])))))
        by (rewrite length_app; simpl; lia).
      simpl. destruct (f _ t a) as [a'|]; [|reflexivity].
      replace (pre ++ t :: rest) with ((pre ++ [t]) ++ rest)
        by (now rewrite <- app_assoc).
      replace (Z.of_nat (List.length pre) + 1)
        with (Z.of_nat (List.length (pre ++ [t])))
        by (rewrite length_app; simpl; lia).
      apply IH. rewrite <- app_assoc. exact Hbound.
    + rewrite for_each_index_ge by lia.
      now replace (Z.to_nat (bound - Z.of_nat (List.length pre))) with O
        by lia.
Qed.

Lemma for_each_index_read (arr : list T) bound a :
  bound <= Z.of_nat (List.length arr) ->
  for_each_index
    (fun i acc => match read arr i with
                  | Some t => f i t acc
                  | None => None
                  end)
    bound 0 a
  = fold_indexed f 0 (firstn (Z.to_nat bound) arr) a.
Proof.
  intros Hbound.
  pose proof (for_each_index_read_from arr [] bound a Hbound) as H.
  simpl in H. now rewrite Z.sub_0_r in H.
Qed.

(** The same loop with a bound beyond the array: it fails, at the latest on
    the read just past the last element. *)
Lemma for_each_index_read_beyond (rest pre : list T) bound a :
  Z.of_nat (List.length (pre ++ rest)) < bound ->
  for_each_index
    (fun i acc => match read (pre ++ rest) i with
                  | Some t => f i t acc
                  | None => None
                  end)
    bound (Z.of_nat (List.length pre)) a
  = None.
Proof.
  revert pre a. induction rest as [|t rest IH]; intros pre a Hbound.
  - rewrite app_nil_r in *. rewrite for_each_index_lt by exact Hbound.
    now rewrite read_end.
  - rewrite for_each_index_lt by (rewrite length_app in Hbound; lia).
    rewrite read_middle. destruct (f _ t a) as [a'|]; [|reflexivity].
    replace (pre ++ t :: rest) with ((pre ++ [t]) ++ rest)
      by (now rewrite <- app_assoc).
    replace (Z.of_nat (List.length pre) + 1)
      with (Z.of_nat (List.length (pre ++ [t])))
      by (rewrite length_app; simpl; lia).
    apply IH. rewrite <- app_assoc. exact Hbound.
Qed.

End ArrayLoop.

(** * The coordinate file *)

Lemma spaces_length n : String.length (spaces n) = n.
Proof. induction n as [|n IH]; simpl; [reflexivity | now rewrite IH]. Qed.

Lemma put_left_length w s :
  String.length (put_left w s) = Nat.max w (String.length s).
Proof. unfold put_left. rewrite string_length_append, spaces_length. lia. Qed.

Lemma put_right_length w s :
  String.length (put_right w s) = Nat.max w (String.length s).
Proof. unfold put_right. rewrite string_length_append, spaces_length. lia. Qed.

Section PdbFacts.

Context {RA : RealArith} {AtomName : Type} {RD : Rendering AtomName}.

Import Pdb.

(** X12. A record of the coordinate file begins with [ATOM] and two blanks
    and is never shorter than 54 characters; it is exactly 54 characters
    long if and only if every field fits its column: serial number in 5,
    name in 3, molecule number in 6, and the three coordinates in 12, 8 and
    8 characters.  A field that does not fit is written in full and makes
    the record longer. *)
Theorem atom_record_width (i : Z) (a : Atom) :
  String.prefix "ATOM  " (atom_record i a) = true
  /\ (54 <= String.length (atom_record i a))%nat
  /\ (String.length (atom_record i a) = 54%nat
      <-> (String.length (show_int (id a + 1)) <= 5
           /\ String.length (show_name (name a)) <= 3
           /\ String.length (show_int (i + 1)) <= 6
           /\ String.length (show_fixed3 (x a)) <= 12
           /\ String.length (show_fixed3 (y a)) <= 8
           /\ String.length (show_fixed3 (z a)) <= 8)%nat).
Proof.
  split; [unfold atom_record; apply string_prefix_append|].
  unfold atom_record.
  rewrite !string_length_append, !put_right_length, put_left_length.
  simpl String.length. lia.
Qed.

Lemma fold_atom_records i (l : list Atom) j lines :
  fold_indexed (fun (_ : Z) a ls => Some (ls ++ [atom_record i a])) j l lines
  = Some (lines ++ map (atom_record i) l).
Proof.
  revert j lines. induction l as [|a l IH]; intros j lines; simpl.
  - now rewrite app_nil_r.
  - rewrite IH, <- app_assoc. reflexivity.
Qed.

Lemma write_atoms_in_bounds i mol lines :
  numOfAtoms mol <= Z.of_nat (List.length (atoms mol)) ->
  write_atoms i mol lines = Some (lines ++ atom_records i mol).
Proof.
  intros Hn. unfold write_atoms, atom_records.
  rewrite (for_each_index_read
             (fun (_ : Z) a ls => Some (ls ++ [atom_record i a])))
    by exact Hn.
  apply fold_atom_records.
Qed.

Lemma write_atoms_beyond i mol lines :
  Z.of_nat (List.length (atoms mol)) < numOfAtoms mol ->
  write_atoms i mol lines = None.
Proof.
  intros Hn. unfold write_atoms.
  apply (for_each_index_read_beyond
           (fun (_ : Z) a ls => Some (ls ++ [atom_record i a]))
           (atoms mol) []).
  exact Hn.
Qed.

(** The body of the loop over the molecules. *)
Local Abbreviation block_body :=
  (fun i currentMol ls =>
     match write_atoms i currentMol ls with
     | Some ls' => Some (ls' ++ ["TER"])
     | None => None
     end).

Lemma fold_blocks (mols : list Molecule) i lines :
  atoms_in_bounds mols ->
  fold_indexed block_body i mols lines
  = Some (lines ++ molecule_blocks i mols).
Proof.
  intros Hall. revert i lines.
  induction Hall as [|mol mols Hmol _ IH]; intros i lines; simpl.
  - now rewrite app_nil_r.
  - rewrite write_atoms_in_bounds by exact Hmol.
    rewrite IH, <- !app_assoc. reflexivity.
Qed.

Lemma fold_blocks_beyond (mols : list Molecule) i lines :
  Exists (fun mol => Z.of_nat (List.length (atoms mol)) < numOfAtoms mol)
         mols ->
  fold_indexed block_body i mols lines = None.
Proof.
  intros Hex. revert i lines.
  induction Hex as [mol mols Hmol|mol mols _ IH]; intros i lines; simpl.
  - now rewrite write_atoms_beyond.
  - destruct (write_atoms i mol lines); [apply IH | reflexivity].
Qed.

(** X13. When the molecule array holds the [numOfMolecules] molecules of the
    environment and each of them the atoms it announces, the coordinate
    file is the remark line, then for each molecule in order its atom
    records followed by [TER], then [END]; molecule numbers start at 1. *)
Theorem writePDB_layout env (mols : list Molecule) :
  numOfMolecules env <= Z.of_nat (List.length mols) ->
  atoms_in_bounds (firstn (Z.to_nat (numOfMolecules env)) mols) ->
  writePDB_lines env mols
  = Some ("REMARK Created by MCGPU"
          :: molecule_blocks 0 (firstn (Z.to_nat (numOfMolecules env)) mols)
          ++ ["END"]).
Proof.
  intros Hn Hatoms. unfold writePDB_lines.
  rewrite (for_each_index_read block_body) by exact Hn.
  now rewrite fold_blocks by exact Hatoms.
Qed.

(** X14. The writer stays inside its arrays, and writes a file, exactly
    when the molecule array holds at least [numOfMolecules] molecules and
    each of the first [numOfMolecules] holds at least the atoms it
    announces; otherwise a loop reads past the end of an array. *)
Theorem writePDB_in_bounds_iff env (mols : list Molecule) :
  writePDB_lines env mols <> None
  <-> numOfMolecules env <= Z.of_nat (List.length mols)
      /\ atoms_in_bounds (firstn (Z.to_nat (numOfMolecules env)) mols).
Proof.
  split.
  - intros Hsome.
    destruct (Z_le_dec (numOfMolecules env) (Z.of_nat (List.length mols)))
      as [Hn|Hn].
    + split; [exact Hn|].
      destruct (Forall_dec
                  (fun mol => numOfAtoms mol
                              <= Z.of_nat (List.length (atoms mol)))
                  (fun mol => Z_le_dec (numOfAtoms mol)
                                (Z.of_nat (List.length (atoms mol))))
                  (firstn (Z.to_nat (numOfMolecules env)) mols))
        as [Hall|Hnot]; [exact Hall|].
      exfalso. apply Hsome. unfold writePDB_lines.
      rewrite (for_each_index_read block_body) by exact Hn.
      rewrite fold_blocks_beyond; [reflexivity|].
      apply neg_Forall_Exists_neg in Hnot;
        [|intros mol; apply Z_le_dec].
      apply Exists_exists in Hnot. destruct Hnot as (mol & Hin & Hbad).
      apply Exists_exists. exists mol. split; [exact Hin | lia].
    + exfalso. apply Hsome. unfold writePDB_lines.
      rewrite (for_each_index_read_beyond block_body mols []);
        [reflexivity | simpl; lia].
  - intros [Hn Hatoms]. now rewrite writePDB_layout.
Qed.

Lemma molecule_blocks_length i (mols : list Molecule) :
  atoms_in_bounds mols ->
  Z.of_nat (List.length (molecule_blocks i mols))
  = Z.of_nat (List.length mols) + atom_count mols.
Proof.
  intros Hall. revert i.
  induction Hall as [|mol mols Hmol _ IH]; intros i.
  - reflexivity.
  - cbn [molecule_blocks]. rewrite !length_app, !Nat2Z.inj_add, IH.
    unfold atom_records. rewrite length_map, length_firstn.
    change (atom_count (mol :: mols))
      with (Z.max 0 (numOfAtoms mol) + atom_count mols).
    simpl List.length. lia.
Qed.

(** X15. Within the arrays the coordinate file has one line for the remark,
    one for each atom announced by the molecules written, one [TER] line
    for each molecule and one [END] line. *)
Theorem writePDB_line_count env (mols : list Molecule) :
  numOfMolecules env <= Z.of_nat (List.length mols) ->
  atoms_in_bounds (firstn (Z.to_nat (numOfMolecules env)) mols) ->
  exists lines,
    writePDB_lines env mols = Some lines
    /\ Z.of_nat (List.length lines)
       = 2 + Z.max 0 (numOfMolecules env)
         + atom_count (firstn (Z.to_nat (numOfMolecules env)) mols).
Proof.
  intros Hn Hatoms. eexists. split; [now apply writePDB_layout|].
  simpl List.length. rewrite length_app, Nat2Z.inj_succ, Nat2Z.inj_add.
  rewrite molecule_blocks_length by exact Hatoms.
  rewrite length_firstn. simpl List.length. lia.
Qed.

End PdbFacts.

(** * The results file and the integration test *)

Lemma occurs_append c (s t : string) :
  occurs c (s ++ t) = occurs c s || occurs c t.
Proof.
  induction s as [|d s IH]; simpl; [reflexivity|].
  now rewrite IH, orb_assoc.
Qed.

Lemma occurs_get c (s : string) n :
  String.get n s = Some c -> occurs c s = true.
Proof.
  revert n. induction s as [|d s IH]; intros n Hget; simpl in *.
  - discriminate.
  - destruct n as [|n].
    + injection Hget as ->. now rewrite Ascii.eqb_refl.
    + rewrite (IH n Hget). apply orb_true_r.
Qed.

(** A line without the letter [F] does not contain the key. *)
Lemma key_absent (line : string) :
  occurs "F" line = false -> String.index 0 "Final-Energy" line = None.
Proof.
  intros Hnone.
  destruct (String.index 0 "Final-Energy" line) as [m|] eqn:Hidx;
    [|reflexivity].
  apply String.index_correct1 in Hidx. simpl String.length in Hidx.
  pose proof (String.substring_correct1 line m 12 0 ltac:(lia)) as Hget.
  rewrite Hidx in Hget. simpl in Hget. symmetry in Hget.
  apply occurs_get in Hget. congruence.
Qed.

Lemma occurs_F_uint (d : Decimal.uint) :
  occurs "F" (DecimalString.NilEmpty.string_of_uint d) = false.
Proof. induction d; simpl; auto. Qed.

Lemma occurs_F_show_int (z : Z) : occurs "F" (show_int z) = false.
Proof.
  unfold show_int, DecimalString.NilZero.string_of_int,
    DecimalString.NilZero.string_of_uint.
  destruct (Z.to_int z) as [d|d]; destruct d; simpl;
    try reflexivity; apply occurs_F_uint.
Qed.

Lemma key_absent_number (label : string) (z : Z) :
  occurs "F" label = false ->
  String.index 0 "Final-Energy" (label ++ show_int z) = None.
Proof.
  intros Hlabel. apply key_absent.
  now rewrite occurs_append, Hlabel, occurs_F_show_int.
Qed.

Lemma substring_all (s : string) : String.substring 0 (String.length s) s = s.
Proof. induction s as [|c s IH]; simpl; [reflexivity | now rewrite IH]. Qed.

Lemma substr_from_append (label rest : string) :
  substr_from (String.length label) (label ++ rest) = Some rest.
Proof.
  unfold substr_from. rewrite string_length_append.
  replace (String.length label <=? String.length label + String.length rest)%nat
    with true by (symmetry; apply Nat.leb_le; lia).
  replace (String.length label + String.length rest - String.length label)%nat
    with (String.length rest) by lia.
  f_equal. induction label as [|c label IH]; simpl.
  - apply substring_all.
  - exact IH.
Qed.

Lemma string_append_nil_r (s : string) : (s ++ "")%string = s.
Proof. induction s as [|c s IH]; simpl; [reflexivity | now rewrite IH]. Qed.

Lemma string_append_assoc (s t u : string) :
  ((s ++ t) ++ u)%string = (s ++ (t ++ u))%string.
Proof. induction s as [|c s IH]; simpl; [reflexivity | now rewrite IH]. Qed.

(** A chunk without line feed, written with [std::endl], is read back as
    one line. *)
Lemma getlines_from_line (chunk line rest : string) :
  occurs line_feed chunk = false ->
  getlines_from line (chunk ++ String line_feed rest)
  = (line ++ chunk)%string :: getlines_from "" rest.
Proof.
  revert line. induction chunk as [|c chunk IH]; intros line Hnone;
    cbn [append getlines_from].
  - rewrite Ascii.eqb_refl. now rewrite string_append_nil_r.
  - cbn [occurs] in Hnone. apply orb_false_iff in Hnone.
    destruct Hnone as [Hc Hrest].
    rewrite Ascii.eqb_sym, Hc. rewrite IH by exact Hrest.
    now rewrite string_append_assoc.
Qed.

Lemma getlines_line (chunk rest : string) :
  occurs line_feed chunk = false ->
  getlines (chunk ++ String line_feed rest) = chunk :: getlines rest.
Proof. intros Hnone. unfold getlines. now rewrite getlines_from_line. Qed.

Section TestReader.

Context {RA : RealArith} {BM : BoxModel} {AtomName : Type}
        {RD : Rendering AtomName}.
Variables SerialCalcs ParallelCalcs : EnergyBackend.

Local Abbreviation run := (run SerialCalcs ParallelCalcs).

Lemma read_skip (line : string) (rest : list string) :
  String.index 0 "Final-Energy" line = None ->
  read_final_energy (line :: rest) = read_final_energy rest.
Proof. intros Hnone. simpl. now rewrite Hnone. Qed.

Lemma read_stop (label result : string) (rest : list string) (k : nat) :
  String.length label = 15%nat ->
  String.index 0 "Final-Energy" (label ++ result) = Some k ->
  read_final_energy ((label ++ result)%string :: rest) = Extracted result.
Proof.
  intros Hlen Hkey. simpl. rewrite Hkey, <- Hlen.
  now rewrite substr_from_append.
Qed.

Lemma read_past_numbers (res : Results) (rest : list string) :
  read_final_energy
    (("Starting-Step = " ++ show_int (Starting_Step res))%string
     :: ("Steps = " ++ show_int (Steps res))%string
     :: ("Molecule-Count = " ++ show_int (Molecule_Count res))%string
     :: "" :: "[Results]"
     :: ("Final-Energy = " ++ show_Real (Final_Energy res))%string :: rest)
  = Extracted (show_Real (Final_Energy res)).
Proof.
  rewrite !read_skip by (apply key_absent_number; reflexivity).
  rewrite !read_skip by reflexivity.
  now apply (read_stop "Final-Energy = " _ _ 0).
Qed.

Lemma read_past_mode (mode : SimulationMode) (rest : list string) :
  read_final_energy
    (("Simulation-Mode = "
      ++ (if SimulationMode_eqb mode Parallel then "GPU" else "CPU"))%string
     :: rest)
  = read_final_energy rest.
Proof. apply read_skip. now destruct mode. Qed.

(** X16. The integration test reads back the energy the run reports: when
    neither the timestamp line nor the name line of the results file contains
    [Final-Energy], the text the test hands to [strtod] is the final energy
    as the run wrote it. *)
Theorem test_reads_final_energy sim g clk r path res :
  run sim g clk = Returned r ->
  In (ResultsFile path res) (out r) ->
  String.index 0 "Final-Energy" ("Timestamp = " ++ currentDateTime clk) = None ->
  String.index 0 "Final-Energy"
               ("Simulation-Name = " ++ simulationName (args sim)) = None ->
  read_final_energy (results_lines res) = Extracted (show_Real (oldEnergy r)).
Proof.
  intros Hrun Hin Hstamp Hname.
  destruct (run_results_file _ _ _ _ _ _ _ _ Hrun Hin) as [_ ->].
  destruct (run_Returned _ _ _ _ _ _ Hrun) as (last & _ & -> & _ & _ & He & _).
  rewrite He. unfold results_lines.
  set (loop := run_loop SerialCalcs ParallelCalcs sim g
                 (stepStart sim + simSteps sim)).
  cbn [app]. rewrite !read_skip by reflexivity.
  rewrite read_skip by exact Hstamp.
  cbn [results Simulation_Name Simulation_Mode].
  destruct (negb (String.eqb (simulationName (args sim)) "")); cbn [app].
  - rewrite read_skip by exact Hname.
    rewrite read_past_mode. apply (read_past_numbers (results sim clk loop)).
  - rewrite read_past_mode. apply (read_past_numbers (results sim clk loop)).
Qed.

(** X17. The reader stops at the first line that contains [Final-Energy]
    anywhere.  Take the results file as the text the run writes and the
    lines as [getline] cuts them: for a run whose name contains the key and
    no line feed, and whose timestamp contains neither, the test takes its
    number from the name line, and what it hands to [strtod] is [ = ]
    followed by the name. *)
Theorem test_fooled_by_run_name sim g clk r path res k :
  run sim g clk = Returned r ->
  In (ResultsFile path res) (out r) ->
  occurs line_feed (currentDateTime clk) = false ->
  String.index 0 "Final-Energy" ("Timestamp = " ++ currentDateTime clk) = None ->
  occurs line_feed (simulationName (args sim)) = false ->
  String.index 0 "Final-Energy"
               ("Simulation-Name = " ++ simulationName (args sim)) = Some k ->
  read_final_energy (getlines (written_text (results_lines res)))
  = Extracted (" = " ++ simulationName (args sim)).
Proof.
  intros Hrun Hin Hstamp_line Hstamp Hname_line Hname.
  destruct (run_results_file _ _ _ _ _ _ _ _ Hrun Hin) as [_ ->].
  unfold results_lines. cbn [results Timestamp Simulation_Name].
  destruct (String.eqb (simulationName (args sim)) "") eqn:Hempty.
  - apply String.eqb_eq in Hempty. rewrite Hempty in Hname. discriminate.
  - cbn [negb app written_text fold_right].
    rewrite !getlines_line by reflexivity.
    rewrite getlines_line by (rewrite occurs_append, Hstamp_line; reflexivity).
    rewrite getlines_line by (rewrite occurs_append, Hname_line; reflexivity).
    rewrite !read_skip by reflexivity.
    rewrite read_skip by exact Hstamp.
    apply (read_stop "Simulation-Name" (" = " ++ simulationName (args sim))
                     _ k); [reflexivity | exact Hname].
Qed.

End TestReader.

(** * Texts of the one-particle system *)

Example oxygen_record :
  Pdb.atom_record 0 (WellText.atom "O" 0 1500 0 0)
  = "ATOM      1  O   UNK     1       1.500   0.000   0.000".
Proof. vm_compute. reflexivity. Qed.

Example two_waters_file :
  Pdb.writePDB_lines (WellText.environment 2) WellText.two_waters
  = Some ["REMARK Created by MCGPU";
          "ATOM      1  O   UNK     1       1.500   0.000   0.000";
          "ATOM      2  H   UNK     1       2.257   0.586   0.000";
          "ATOM      3  H   UNK     1       0.743   0.586   0.000";
          "TER";
          "ATOM      4  O   UNK     2     -12.250   0.000   0.000";
          "ATOM      5  H   UNK     2     -11.493   0.586   0.000";
          "ATOM      6  H   UNK     2     -13.007   0.586   0.000";
          "TER";
          "END"].
Proof. vm_compute. reflexivity. Qed.

Example three_molecules_of_two :
  Pdb.writePDB_lines (WellText.environment 3) WellText.two_waters = None.
Proof. vm_compute. reflexivity. Qed.

Lemma two_waters_in_bounds :
  Pdb.atoms_in_bounds
    (firstn (Z.to_nat (numOfMolecules (WellText.environment 2)))
            WellText.two_waters).
Proof. repeat constructor; simpl; lia. Qed.

Lemma writePDB_layout_witness :
  Pdb.writePDB_lines (WellText.environment 2) WellText.two_waters
  = Some ("REMARK Created by MCGPU"
          :: Pdb.molecule_blocks 0
               (firstn (Z.to_nat (numOfMolecules (WellText.environment 2)))
                       WellText.two_waters)
          ++ ["END"]).
Proof.
  apply (writePDB_layout (WellText.environment 2) WellText.two_waters).
  - simpl. lia.
  - exact two_waters_in_bounds.
Defined.

Lemma writePDB_line_count_witness :
  exists lines,
    Pdb.writePDB_lines (WellText.environment 2) WellText.two_waters
    = Some lines
    /\ Z.of_nat (List.length lines)
       = 2 + Z.max 0 (numOfMolecules (WellText.environment 2))
         + Pdb.atom_count
             (firstn (Z.to_nat (numOfMolecules (WellText.environment 2)))
                     WellText.two_waters).
Proof.
  apply (writePDB_line_count (WellText.environment 2)
           WellText.two_waters).
  - simpl. lia.
  - exact two_waters_in_bounds.
Defined.

Lemma misnamed_result_eq :
  run Well.backend Well.backend Named.misnamed 12345 Well.clock
  = Returned Named.misnamed_result.
Proof. apply run_returned_eq. reflexivity. Qed.

Lemma Named_report_written :
  In (ResultsFile (resultsName (args Named.sim)) Named.report)
     (out Named.result).
Proof.
  exact (proj1 (run_writes_report Well.backend Well.backend Named.sim 12345
                  Well.clock Named.result Named_result)).
Qed.

Lemma Named_coordinates_written :
  In (PdbFile (pdbName (args Named.sim)) (cur_box Named.result))
     (out Named.result).
Proof.
  exact (proj2 (run_writes_report Well.backend Well.backend Named.sim 12345
                  Well.clock Named.result Named_result)).
Qed.

Lemma misnamed_report_written :
  In (ResultsFile (resultsName (args Named.misnamed)) Named.misnamed_report)
     (out Named.misnamed_result).
Proof.
  exact (proj1 (run_writes_report Well.backend Well.backend Named.misnamed
                  12345 Well.clock Named.misnamed_result misnamed_result_eq)).
Qed.

Lemma test_reads_final_energy_witness :
  read_final_energy (results_lines Named.report)
  = Extracted (show_Real (oldEnergy Named.result)).
Proof.
  refine (test_reads_final_energy Well.backend Well.backend Named.sim 12345
            Well.clock Named.result (resultsName (args Named.sim))
            Named.report Named_result Named_report_written _ _);
    reflexivity.
Defined.

Lemma test_fooled_by_run_name_witness :
  read_final_energy
    (getlines (written_text (results_lines Named.misnamed_report)))
  = Extracted " = Final-Energy".
Proof.
  refine (test_fooled_by_run_name Well.backend Well.backend Named.misnamed
            12345 Well.clock Named.misnamed_result
            (resultsName (args Named.misnamed)) Named.misnamed_report 18
            misnamed_result_eq misnamed_report_written _ _ _ _);
    reflexivity.
Defined.

Lemma report_describes_final_box_witness :
  Final_Energy Named.report = Well.energy (cur_box Named.result).
Proof.
  refine (proj1 (report_describes_final_box Well.backend Well.backend
                   Named.sim 12345 Well.clock Named.result
                   (resultsName (args Named.sim)) Named.report
                   (pdbName (args Named.sim)) (cur_box Named.result)
                   _ _ Named_result Named_report_written
                   Named_coordinates_written)).
  - intros idx b rg.
    change (Well.energy (fst (changeMolecule idx b rg))
            = Well.energy b
              + (Well.energy (fst (changeMolecule idx b rg)) - Well.energy b)).
    lia.
  - intros idx b rg. reflexivity.
Defined.

(** With a line feed in the name the name line is cut in two, and the reader
    meets the twelve characters of the key alone: [substr(15)] throws. *)
Example line_feed_in_name :
  let sim := Well.sim "water.config"
                      (String "x" (String line_feed "Final-Energy")) 0 10 0 0 in
  read_final_energy
    (getlines
       (written_text
          (results_lines
             (results sim Well.clock
                (run_loop Well.backend Well.backend sim 12345 10)))))
  = OutOfRange.
Proof. vm_compute. reflexivity. Qed.
